(** * scripts/publish.py: the package publishing helper

    A shallow embedding of [scripts/publish.py] and the properties of its
    command runner, its stages, its confirmation gate and its orchestrator.

    The script talks to its surroundings in four ways: it spawns external
    commands, it edits the [dist] directory, it reads one line from the
    keyboard and it prints.  The surroundings are a record of oracles
    ([Env]); what the script changes or emits is threaded through an explicit
    [World]; Python exceptions are an error result. *)

From Stdlib Require Import List String Ascii ZArith NArith Bool Lia.
From Stdlib Require Import DecimalString.
Import ListNotations.

Local Open Scope string_scope.
Local Open Scope list_scope.

(** ** Python text

    [input()] returns a [str], a sequence of Unicode code points, and
    [str.lower] works on code points.  The messages and command tokens of
    the script are never inspected character by character and stay Rocq
    strings (their UTF-8 bytes). *)

Module PyStr.

Definition t : Type := list N.

(** A string literal of the source, all of whose characters are ASCII. *)
Definition lit (s : string) : t := map N_of_ascii (list_ascii_of_string s).

Fixpoint eqb (a b : t) : bool :=
  match a, b with
  | [], [] => true
  | x :: a', y :: b' => N.eqb x y && eqb a' b'
  | _, _ => false
  end.

(** [A]..[Z] go to [a]..[z]; every other ASCII code point is kept. *)
Definition ascii_lower (c : N) : N :=
  if (65 <=? c)%N && (c <=? 90)%N then (c + 32)%N else c.

Section Lower.

(** The lower-case mapping of the code points outside ASCII belongs to
    the interpreter's Unicode tables.  It may look at the neighbours of
    the code point (the final-sigma rule) and may give several code
    points (U+0130), so it takes the code points before and after. *)
Variable unicode_lower : list N -> N -> list N -> list N.

Definition lower_cp (before : list N) (c : N) (after : list N) : list N :=
  if (c <? 128)%N then [ascii_lower c] else unicode_lower before c after.

Fixpoint lower_from (before : list N) (s : t) : t :=
  match s with
  | [] => []
  | c :: after => lower_cp before c after ++ lower_from (before ++ [c]) after
  end.

(** [s.lower()] *)
Definition lower (s : t) : t := lower_from [] s.

End Lower.

(** What the Unicode tables guarantee and the gate relies on: lower-casing
    a code point outside ASCII gives at least one code point, and never
    one of [y], [e], [s].  (The only ASCII letters that non-ASCII code
    points lower to are [i], from U+0130, and [k], from U+212A.) *)
Definition lower_table_ok (tbl : list N -> N -> list N -> list N) : Prop :=
  forall before c after,
    (128 <= c)%N ->
    tbl before c after <> [] /\
    Forall (fun d => d <> 121 /\ d <> 101 /\ d <> 115)%N (tbl before c after).

(** A table with the two code points that lower into ASCII; every other
    code point is left alone. *)
Definition sample_table (before : list N) (c : N) (after : list N) : list N :=
  if (c =? 8490)%N then [107%N]
  else if (c =? 304)%N then [105%N; 775%N]
  else [c].

End PyStr.

(** ** The confirmation gate

    [publish_pypi], lines 56-59: the publish is cancelled when
    [response.lower() != "yes"].  [gate_approves] is the negation of that
    test. *)

Definition gate_denies (tbl : list N -> N -> list N -> list N)
    (response : PyStr.t) : bool :=
  negb (PyStr.eqb (PyStr.lower tbl response) (PyStr.lit "yes")).

Definition gate_approves (tbl : list N -> N -> list N -> list N)
    (response : PyStr.t) : bool :=
  negb (gate_denies tbl response).

(** The eight spellings of "yes" in upper and lower case. *)
Definition yes_spellings : list PyStr.t :=
  map PyStr.lit ["yes"; "yeS"; "yEs"; "yES"; "Yes"; "YeS"; "YEs"; "YES"].

(** The code points of the letters of "yes". *)
Definition yes_letter (d : N) : Prop := (d = 121 \/ d = 101 \/ d = 115)%N.

(** ** Exceptions, results and the world *)

Inductive OSErrorKind : Type :=
| FileNotFoundError
| PermissionError
| IsADirectoryError
| NotADirectoryError
| DirectoryNotEmpty.

(** The exceptions the script can meet.  [CalledProcessError] is the spec's
    [CommandFailed], [OSError] its [FilesystemError]. *)
Inductive Exn : Type :=
| CalledProcessError (returncode : Z) (cmd : list string) (output err : string)
| OSError (kind : OSErrorKind)
| KeyboardInterrupt
| EOFError
| SystemExit (code : Z).

Inductive Result (A : Type) : Type :=
| Ok (a : A)
| Raise (e : Exn).

Arguments Ok {A} a.
Arguments Raise {A} e.

(** An entry of the [dist] directory.  [entry_unlinkable] says whether the
    operating system lets the script remove the name. *)
Record Entry : Type := mkEntry {
  entry_name : string;
  entry_is_dir : bool;
  entry_unlinkable : bool
}.

(** What the path [dist] is: nothing, something that is not a directory, or
    a directory with its immediate entries in the order the operating system
    lists them.  [listable]: the script may read the directory;
    [removable]: it may remove the directory from its parent. *)
Inductive Dist : Type :=
| Absent
| NotADirectory
| Directory (entries : list Entry) (listable removable : bool).

Inductive Stream : Type := Stdout | Stderr.

Inductive ParserReport : Type :=
| HelpText
| InvalidChoice (token : string)
| MissingAction
| Unrecognized (extras : list string)
| IgnoredExplicitArgument (token : string).

(** What reaches the terminal: a [print] call (the text, a newline
    follows), the prompt of [input] and the messages of argparse. *)
Inductive Event : Type :=
| Print (to : Stream) (text : string)
| Prompt (text : string)
| Parser (report : ParserReport).

Inductive Stage : Type :=
| Clean
| Build
| Check
| PublishTest
| PublishPypi.

(** [dist] and [output] are the state the script acts on.  [spawned] and
    [entered] are logs kept for the proofs: the argument vector of every
    [subprocess.run] call and every stage function entered, in order. *)
Record World : Type := mkWorld {
  dist : Dist;
  output : list Event;
  spawned : list (list string);
  entered : list Stage
}.

Definition set_dist (d : Dist) (w : World) : World :=
  mkWorld d (output w) (spawned w) (entered w).

Definition emit (e : Event) (w : World) : World :=
  mkWorld (dist w) (output w ++ [e]) (spawned w) (entered w).

Definition log_spawn (cmd : list string) (w : World) : World :=
  mkWorld (dist w) (output w) (spawned w ++ [cmd]) (entered w).

Definition log_stage (s : Stage) (w : World) : World :=
  mkWorld (dist w) (output w) (spawned w) (entered w ++ [s]).

(** ** The monad of the script: state and exceptions *)

Definition M (A : Type) : Type := World -> Result A * World.

Definition ret {A : Type} (a : A) : M A := fun w => (Ok a, w).

Definition raise {A : Type} (e : Exn) : M A := fun w => (Raise e, w).

Definition bind {A B : Type} (m : M A) (k : A -> M B) : M B :=
  fun w =>
    match m w with
    | (Ok a, w') => k a w'
    | (Raise e, w') => (Raise e, w')
    end.

(** [try: body except ...: handler]; a handler that does not match the
    exception re-raises it. *)
Definition try_except {A : Type} (body : M A) (handler : Exn -> M A) : M A :=
  fun w =>
    match body w with
    | (Ok a, w') => (Ok a, w')
    | (Raise e, w') => handler e w'
    end.

Notation "x <- m ;; k" := (bind m (fun x => k))
  (at level 61, m at next level, right associativity).
Notation "m ;; k" := (bind m (fun _ => k))
  (at level 61, right associativity).

Fixpoint for_each {A : Type} (items : list A) (body : A -> M unit) : M unit :=
  match items with
  | [] => ret tt
  | x :: rest => body x ;; for_each rest body
  end.

Definition print (text : string) : M unit :=
  fun w => (Ok tt, emit (Print Stdout text) w).

Definition print_err (text : string) : M unit :=
  fun w => (Ok tt, emit (Print Stderr text) w).

Definition enter (s : Stage) : M unit :=
  fun w => (Ok tt, log_stage s w).

(** [sys.exit(code)] *)
Definition sys_exit {A : Type} (code : Z) : M A := raise (SystemExit code).

(** The status the process ends with: 0 after a normal return, the code of
    [sys.exit], and the interpreter's status for an exception nobody caught
    (1 after the traceback, 130 for a keyboard interrupt). *)
Definition exit_status {A : Type} (r : Result A) : Z :=
  match r with
  | Ok _ => 0
  | Raise (SystemExit code) => code
  | Raise KeyboardInterrupt => 130
  | Raise _ => 1
  end.

(** ** The surroundings *)

Inductive SpawnOutcome : Type :=
| Exited (returncode : Z) (out err : string)
| CannotSpawn (kind : OSErrorKind)
| SpawnInterrupted.

Inductive KeyboardOutcome : Type :=
| Line (response : PyStr.t)
| EndOfInput
| Interrupt.

(** [spawn cmd d]: what running [cmd] to its end gives when [dist] is [d],
    and what it leaves [dist] as.  [keyboard]: what the one [input] call
    of a run meets. *)
Record Env : Type := mkEnv {
  sys_executable : string;
  unicode_lower : list N -> N -> list N -> list N;
  spawn : list string -> Dist -> SpawnOutcome * Dist;
  keyboard : KeyboardOutcome
}.

Record CompletedProcess : Type := mkCompleted {
  args : list string;
  returncode : Z;
  stdout : string;
  stderr : string
}.

(** [subprocess.run(cmd, capture_output=True, text=True, check=check)]:
    with [check], a non-zero return code raises [CalledProcessError] from
    inside the call. *)
Definition subprocess_run (env : Env) (cmd : list string) (check : bool)
    : M CompletedProcess :=
  fun w =>
    let (outcome, d) := spawn env cmd (dist w) in
    let w' := set_dist d (log_spawn cmd w) in
    match outcome with
    | Exited rc out err =>
        if check && negb (rc =? 0)%Z
        then (Raise (CalledProcessError rc cmd out err), w')
        else (Ok (mkCompleted cmd rc out err), w')
    | CannotSpawn kind => (Raise (OSError kind), w')
    | SpawnInterrupted => (Raise KeyboardInterrupt, w')
    end.

(** [input(prompt)] *)
Definition input (env : Env) (prompt : string) : M PyStr.t :=
  fun w =>
    let w' := emit (Prompt prompt) w in
    match keyboard env with
    | Line response => (Ok response, w')
    | EndOfInput => (Raise EOFError, w')
    | Interrupt => (Raise KeyboardInterrupt, w')
    end.

(** The truth value of a Python string: non-empty. *)
Definition truthy (s : string) : bool :=
  match s with
  | EmptyString => false
  | String _ _ => true
  end.

(** [str(n)] for an [int] *)
Definition str_of_int (n : Z) : string := NilZero.string_of_int (Z.to_int n).

Definition newline : string := String (ascii_of_nat 10) EmptyString.

(** ** pathlib on [Path("dist")] *)

(** [dist_dir.exists()] *)
Definition path_exists : M bool :=
  fun w =>
    match dist w with
    | Absent => (Ok false, w)
    | _ => (Ok true, w)
    end.

(** [dist_dir.glob("*")]: the names of the immediate entries, hidden ones
    too, read in one go when the iteration starts.  pathlib swallows the
    error of a directory it may not read and yields nothing; a path that is
    not a directory yields nothing either. *)
Definition glob_star : M (list string) :=
  fun w =>
    match dist w with
    | Directory entries true _ => (Ok (map entry_name entries), w)
    | _ => (Ok [], w)
    end.

Definition named (name : string) (e : Entry) : bool :=
  String.eqb (entry_name e) name.

Fixpoint remove_entry (name : string) (entries : list Entry) : list Entry :=
  match entries with
  | [] => []
  | e :: rest => if named name e then rest else e :: remove_entry name rest
  end.

(** [file.unlink()] for [file = dist/name] *)
Definition unlink (name : string) : M unit :=
  fun w =>
    match dist w with
    | Absent => (Raise (OSError FileNotFoundError), w)
    | NotADirectory => (Raise (OSError NotADirectoryError), w)
    | Directory entries listable removable =>
        match find (named name) entries with
        | None => (Raise (OSError FileNotFoundError), w)
        | Some e =>
            if negb (entry_unlinkable e) then (Raise (OSError PermissionError), w)
            else if entry_is_dir e then (Raise (OSError IsADirectoryError), w)
            else (Ok tt, set_dist (Directory (remove_entry name entries) listable removable) w)
        end
    end.

(** [dist_dir.rmdir()] *)
Definition rmdir : M unit :=
  fun w =>
    match dist w with
    | Absent => (Raise (OSError FileNotFoundError), w)
    | NotADirectory => (Raise (OSError NotADirectoryError), w)
    | Directory entries _ removable =>
        if negb removable then (Raise (OSError PermissionError), w)
        else match entries with
             | [] => (Ok tt, set_dist Absent w)
             | _ :: _ => (Raise (OSError DirectoryNotEmpty), w)
             end
    end.

(** ** argparse, for the parser [main] builds

    One positional argument, [action], with six choices, and the [-h] /
    [--help] flag every parser has.  The model follows
    [ArgumentParser.parse_args] of CPython 3.11 for this parser; digits and
    spaces are the ASCII ones. *)

Module Argparse.

Definition choices : list string :=
  ["clean"; "build"; "check"; "test"; "publish"; "all"].

Definition is_choice (tok : string) : bool :=
  existsb (String.eqb tok) choices.

Fixpoint contains (c : ascii) (s : string) : bool :=
  match s with
  | EmptyString => false
  | String x rest => Ascii.eqb x c || contains c rest
  end.

Fixpoint all_chars (p : ascii -> bool) (s : string) : bool :=
  match s with
  | EmptyString => true
  | String x rest => p x && all_chars p rest
  end.

(** The part of [s] before its first [=] (all of [s] without one). *)
Fixpoint before_equals (s : string) : string :=
  match s with
  | EmptyString => EmptyString
  | String x rest =>
      if Ascii.eqb x "=" then EmptyString else String x (before_equals rest)
  end.

Definition is_digit (c : ascii) : bool :=
  (48 <=? nat_of_ascii c)%nat && (nat_of_ascii c <=? 57)%nat.

Definition digits1 (s : string) : bool :=
  truthy s && all_chars is_digit s.

Fixpoint skip_digits (s : string) : string :=
  match s with
  | EmptyString => EmptyString
  | String x rest => if is_digit x then skip_digits rest else s
  end.

(** The parser's pattern for negative numbers: a minus sign, then digits,
    or digits (maybe none), a dot and at least one digit. *)
Definition looks_negative_number (s : string) : bool :=
  match s with
  | String "-" rest =>
      digits1 rest ||
      match skip_digits rest with
      | String "." frac => digits1 frac
      | _ => false
      end
  | _ => false
  end.

Inductive TokenClass : Type :=
| Positional
| HelpFlag
| HelpFlagWithValue
| UnknownOption.

(** How the parser reads one token (the separator [--] apart).  A long
    option may be abbreviated, so every prefix of [--help] from [--h] on
    is the help flag; [-h] may be repeated in one token ([-hh]); a value
    given to the help flag ([--help=1], [-hx]) is an error.  A token that
    looks like a negative number or holds a space is an argument. *)
Definition classify (tok : string) : TokenClass :=
  match tok with
  | String "-" (String c rest) =>
      if Ascii.eqb c "-" then
        if String.prefix (before_equals tok) "--help" then
          if contains "=" tok then HelpFlagWithValue else HelpFlag
        else if contains " " tok then Positional
        else UnknownOption
      else if Ascii.eqb c "h" then
        if all_chars (Ascii.eqb "h") rest then HelpFlag else HelpFlagWithValue
      else if looks_negative_number tok || contains " " tok then Positional
      else UnknownOption
  | _ => Positional
  end.

Inductive Parsed : Type :=
| Namespace (action : string)
| Exit (code : Z) (report : ParserReport).

(** The parser goes through the tokens from left to right.  [after_dashes]:
    the separator [--] was met, every later token is an argument.
    [action]: the value the positional already has.  [extras]: the tokens
    nothing consumed.  The help flag and an error end the parse where they
    are met; missing and left-over arguments are errors at the end. *)
Fixpoint scan (after_dashes : bool) (action : option string)
    (extras : list string) (argv : list string) : Parsed :=
  match argv with
  | [] =>
      match action with
      | None => Exit 2 MissingAction
      | Some a =>
          match extras with
          | [] => Namespace a
          | _ :: _ => Exit 2 (Unrecognized extras)
          end
      end
  | tok :: rest =>
      if negb after_dashes && String.eqb tok "--" then scan true action extras rest
      else
        match (if after_dashes then Positional else classify tok) with
        | Positional =>
            match action with
            | None =>
                if is_choice tok then scan after_dashes (Some tok) extras rest
                else Exit 2 (InvalidChoice tok)
            | Some _ => scan after_dashes action (extras ++ [tok]) rest
            end
        | HelpFlag => Exit 0 HelpText
        | HelpFlagWithValue => Exit 2 (IgnoredExplicitArgument tok)
        | UnknownOption => scan after_dashes action (extras ++ [tok]) rest
        end
  end.

(** The token the parser gives to [action]: the first argument token, if
    the parse gets that far. *)
Fixpoint action_token (after_dashes : bool) (argv : list string)
    : option string :=
  match argv with
  | [] => None
  | tok :: rest =>
      if after_dashes then Some tok
      else if String.eqb tok "--" then action_token true rest
      else
        match classify tok with
        | Positional => Some tok
        | UnknownOption => action_token false rest
        | HelpFlag | HelpFlagWithValue => None
        end
  end.

End Argparse.

(** [parser.parse_args()] on [sys.argv[1:]]: the namespace's [action], or
    the parser's message and [sys.exit].  (Keyboard interrupts are
    modelled where the script waits, at the prompt and while a command
    runs; the parse, which line 73 runs outside the [try] block, and the
    [print] calls are taken as not interrupted.) *)
Definition parse_args (argv : list string) : M string :=
  fun w =>
    match Argparse.scan false None [] argv with
    | Argparse.Namespace action => (Ok action, w)
    | Argparse.Exit code report => (Raise (SystemExit code), emit (Parser report) w)
    end.

(** ** The script *)

(** [run_command], lines 14-22 *)
Definition run_command (env : Env) (cmd : list string) (check : bool)
    : M CompletedProcess :=
  print ("Running: " ++ String.concat " " cmd) ;;
  result <- subprocess_run env cmd check ;;
  (if truthy (stdout result) then print (stdout result) else ret tt) ;;
  (if truthy (stderr result) then print_err (stderr result) else ret tt) ;;
  ret result.

(** [clean_dist], lines 25-32 *)
Definition clean_dist : M unit :=
  enter Clean ;;
  print "Cleaning dist directory..." ;;
  present <- path_exists ;;
  if present then
    files <- glob_star ;;
    for_each files unlink ;;
    rmdir
  else ret tt.

(** [build_package], lines 35-38 *)
Definition build_package (env : Env) : M unit :=
  enter Build ;;
  print "Building package..." ;;
  run_command env [sys_executable env; "-m"; "build"] true ;;
  ret tt.

(** [check_package], lines 41-44 *)
Definition check_package (env : Env) : M unit :=
  enter Check ;;
  print "Checking package..." ;;
  run_command env ["twine"; "check"; "dist/*"] true ;;
  ret tt.

(** [publish_test], lines 47-50 *)
Definition publish_test (env : Env) : M unit :=
  enter PublishTest ;;
  print "Publishing to Test PyPI..." ;;
  run_command env ["twine"; "upload"; "--repository"; "testpypi"; "dist/*"] true ;;
  ret tt.

(** [publish_pypi], lines 53-61 *)
Definition publish_pypi (env : Env) : M unit :=
  enter PublishPypi ;;
  print "Publishing to PyPI..." ;;
  response <- input env "Are you sure you want to publish to PyPI? (yes/no): " ;;
  if gate_denies (unicode_lower env) response then
    print "Cancelled."
  else
    run_command env ["twine"; "upload"; "dist/*"] true ;;
    ret tt.

Definition success_marker : string := "✓ Action completed successfully!".

Definition failure_marker (returncode : Z) : string :=
  "✗ Command failed with exit code " ++ str_of_int returncode.

Definition cancel_marker : string := newline ++ "✗ Cancelled by user".

(** The [if]/[elif] chain of [main], lines 76-92 *)
Definition dispatch (env : Env) (action : string) : M unit :=
  if String.eqb action "clean" then clean_dist
  else if String.eqb action "build" then build_package env
  else if String.eqb action "check" then check_package env
  else if String.eqb action "test" then publish_test env
  else if String.eqb action "publish" then publish_pypi env
  else if String.eqb action "all" then
    clean_dist ;;
    build_package env ;;
    check_package env ;;
    print (newline ++ "Package built and checked successfully!") ;;
    print "Run 'python scripts/publish.py test' to publish to Test PyPI" ;;
    print "Run 'python scripts/publish.py publish' to publish to PyPI"
  else ret tt.

(** The two [except] clauses of [main], lines 96-101 *)
Definition handler (e : Exn) : M unit :=
  match e with
  | CalledProcessError rc _ _ _ => print (failure_marker rc) ;; sys_exit 1
  | KeyboardInterrupt => print cancel_marker ;; sys_exit 1
  | _ => raise e
  end.

(** [main], lines 64-101, on the command line [argv] *)
Definition main (env : Env) (argv : list string) : M unit :=
  action <- parse_args argv ;;
  try_except (dispatch env action ;; print success_marker) handler.

(** An entry the script can delete: a name it may remove that is not a
    directory. *)
Definition deletable (e : Entry) : bool :=
  entry_unlinkable e && negb (entry_is_dir e).

(** The world after the two opening lines of [clean_dist]. *)
Definition clean_started (w : World) : World :=
  emit (Print Stdout "Cleaning dist directory...") (log_stage Clean w).

(** The world once [run_command] has announced [cmd] and the command has
    run and left [dist] as [d]. *)
Definition command_ran (cmd : list string) (d : Dist) (w : World) : World :=
  set_dist d
    (log_spawn cmd (emit (Print Stdout ("Running: " ++ String.concat " " cmd)) w)).

(** A captured stream written to [to] when it is not empty. *)
Definition echo (to : Stream) (text : string) (w : World) : World :=
  if truthy text then emit (Print to text) w else w.

Definition echoed (to : Stream) (text : string) : list Event :=
  if truthy text then [Print to text] else [].

(** The commands of the stages. *)
Definition build_cmd (env : Env) : list string :=
  [sys_executable env; "-m"; "build"].

Definition check_cmd : list string := ["twine"; "check"; "dist/*"].

Definition test_upload_cmd : list string :=
  ["twine"; "upload"; "--repository"; "testpypi"; "dist/*"].

Definition upload_cmd : list string := ["twine"; "upload"; "dist/*"].

(** The world once a stage has logged its entry and printed its banner. *)
Definition stage_started (s : Stage) (banner : string) (w : World) : World :=
  emit (Print Stdout banner) (log_stage s w).

(** The world once [publish_pypi] has asked its question. *)
Definition publish_asked (w : World) : World :=
  emit (Prompt "Are you sure you want to publish to PyPI? (yes/no): ")
       (stage_started PublishPypi "Publishing to PyPI..." w).

(** A result with its value forgotten, as a stage that ends in a call of
    [run_command] hands it on. *)
Definition discard {A : Type} (r : Result A) : Result unit :=
  match r with
  | Ok _ => Ok tt
  | Raise e => Raise e
  end.

(** ** Sample surroundings

    Tools that end with the given return codes; the build leaves one wheel
    in [dist] when it succeeds. *)

Definition sample_spawn (build_rc check_rc upload_rc : Z)
    (cmd : list string) (d : Dist) : SpawnOutcome * Dist :=
  match cmd with
  | [_; "-m"; "build"] =>
      (Exited build_rc "creating wheel" "warning: no license file",
       if (build_rc =? 0)%Z
       then Directory [mkEntry "pkg-1.0-py3-none-any.whl" false true] true true
       else d)
  | "twine" :: "check" :: _ => (Exited check_rc "checked" "", d)
  | "twine" :: "upload" :: _ => (Exited upload_rc "" "uploading", d)
  | _ => (CannotSpawn FileNotFoundError, d)
  end.

Definition sample_env (build_rc check_rc upload_rc : Z)
    (response : string) : Env :=
  mkEnv "/usr/bin/python3" PyStr.sample_table
        (sample_spawn build_rc check_rc upload_rc)
        (Line (PyStr.lit response)).

(** [dist] holding one stale wheel and a hidden file. *)
Definition stale_dist : Dist :=
  Directory [mkEntry "pkg-0.9-py3-none-any.whl" false true;
             mkEntry ".DS_Store" false true] true true.

(** [dist] holding a wheel and a subdirectory. *)
Definition nested_dist : Dist :=
  Directory [mkEntry "pkg-0.9-py3-none-any.whl" false true;
             mkEntry "old" true true] true true.


Definition world_of (d : Dist) : World := mkWorld d [] [] [].

(** ** Vocabulary of the further properties *)

(** The error [unlink] raises for an entry it cannot delete. *)
Definition unlink_error (e : Entry) : OSErrorKind :=
  if entry_unlinkable e then IsADirectoryError else PermissionError.

(** The states of [dist] from which [clean_dist] returns: no [dist]; or a
    directory the script may remove that is listed with only deletable
    entries, or is not listed and is empty. *)
Definition cleanable (d : Dist) : bool :=
  match d with
  | Absent => true
  | NotADirectory => false
  | Directory entries listable removable =>
      removable &&
      (if listable then forallb deletable entries
       else match entries with
            | [] => true
            | _ :: _ => false
            end)
  end.

(** The stage and the command of the actions that run one stage. *)
Definition stage_of (action : string) : option Stage :=
  if String.eqb action "clean" then Some Clean
  else if String.eqb action "build" then Some Build
  else if String.eqb action "check" then Some Check
  else if String.eqb action "test" then Some PublishTest
  else if String.eqb action "publish" then Some PublishPypi
  else None.

(** The same surroundings with another fate for the [input] call. *)
Definition with_keyboard (k : KeyboardOutcome) (env : Env) : Env :=
  mkEnv (sys_executable env) (unicode_lower env) (spawn env) k.

(** Surroundings in which every command is interrupted from the keyboard
    while it runs. *)
Definition interrupted_env : Env :=
  mkEnv "/usr/bin/python3" PyStr.sample_table
        (fun _ d => (SpawnInterrupted, d)) (Line (PyStr.lit "yes")).

(** [dist] with one wheel, in a parent directory the script may not
    change. *)
Definition pinned_dist : Dist :=
  Directory [mkEntry "pkg-0.9-py3-none-any.whl" false true] true false.

(** [dist] with a wheel, a file the script may not remove and a later
    wheel. *)
Definition guarded_dist : Dist :=
  Directory [mkEntry "pkg-0.8-py3-none-any.whl" false true;
             mkEntry "SHA256SUMS" false false;
             mkEntry "pkg-0.9-py3-none-any.whl" false true] true true.

(** The uploads to PyPI that the surroundings allow: one when the line
    typed at the prompt passes the gate, none otherwise. *)
Definition uploads (env : Env) : list (list string) :=
  match keyboard env with
  | Line response =>
      if gate_denies (unicode_lower env) response then [] else [upload_cmd]
  | _ => []
  end.

(** Surroundings in which no tool is installed. *)
Definition missing_tools_env : Env :=
  mkEnv "/usr/bin/python3" PyStr.sample_table
        (fun _ d => (CannotSpawn FileNotFoundError, d)) (Line (PyStr.lit "yes")).

(** * Properties *)

(** ** Lower-casing and the gate *)

Section GateFacts.

Variable tbl : list N -> N -> list N -> list N.
Hypothesis tbl_ok : PyStr.lower_table_ok tbl.

Lemma lower_cp_shape (before : list N) (c : N) (after : list N) :
  ((c < 128)%N /\ PyStr.lower_cp tbl before c after = [PyStr.ascii_lower c]) \/
  (exists d rest,
      PyStr.lower_cp tbl before c after = d :: rest /\ ~ yes_letter d).
Proof.
  unfold PyStr.lower_cp.
  destruct (c <? 128)%N eqn:E.
  - left. apply N.ltb_lt in E. auto.
  - right. apply N.ltb_ge in E.
    destruct (tbl_ok before c after E) as [Hne Hall].
    destruct (tbl before c after) as [|d rest]; [congruence|].
    exists d, rest. split; [reflexivity|].
    inversion Hall as [|? ? Hd _]; subst.
    unfold yes_letter. intuition.
Qed.

Lemma lower_from_nil (before : list N) (s : PyStr.t) :
  PyStr.lower_from tbl before s = [] -> s = [].
Proof.
  destruct s as [|c after]; [reflexivity|]. simpl.
  destruct (lower_cp_shape before c after) as [[_ E]|(d & rest & E & _)];
    rewrite E; discriminate.
Qed.

(** One step of reading a lower-cased string whose head is a letter of
    "yes": the head of the source is the same ASCII letter in one of its
    two cases. *)
Lemma lower_from_cons (before : list N) (s : PyStr.t) (y : N) (l : list N) :
  yes_letter y ->
  PyStr.lower_from tbl before s = y :: l ->
  exists c after,
    s = c :: after /\ (c = y \/ c + 32 = y)%N /\
    PyStr.lower_from tbl (before ++ [c]) after = l.
Proof.
  intros Hy H. destruct s as [|c after]; [discriminate|].
  simpl in H.
  destruct (lower_cp_shape before c after) as [[_ E]|(d & rest & E & Hd)];
    rewrite E in H; simpl in H; inversion H; subst.
  - exists c, after. repeat split; auto.
    unfold PyStr.ascii_lower.
    destruct ((65 <=? c)%N && (c <=? 90)%N); auto.
  - contradiction.
Qed.

Lemma lower_yes_inv (s : PyStr.t) :
  PyStr.lower tbl s = PyStr.lit "yes" -> In s yes_spellings.
Proof.
  unfold PyStr.lower. change (PyStr.lit "yes") with [121; 101; 115]%N.
  intros H.
  apply lower_from_cons in H; [|unfold yes_letter; auto].
  destruct H as (a & s1 & -> & Ha & H).
  apply lower_from_cons in H; [|unfold yes_letter; auto].
  destruct H as (b & s2 & -> & Hb & H).
  apply lower_from_cons in H; [|unfold yes_letter; auto].
  destruct H as (c & s3 & -> & Hc & H).
  apply lower_from_nil in H. subst s3.
  assert (a = 121 \/ a = 89)%N as Ha' by lia.
  assert (b = 101 \/ b = 69)%N as Hb' by lia.
  assert (c = 115 \/ c = 83)%N as Hc' by lia.
  clear Ha Hb Hc.
  destruct Ha', Hb', Hc'; subst; vm_compute; tauto.
Qed.

End GateFacts.

Lemma eqb_eq (a b : PyStr.t) : PyStr.eqb a b = true <-> a = b.
Proof.
  revert b. induction a as [|x a IH]; destruct b as [|y b]; simpl;
    try (split; [discriminate|congruence]); [tauto|].
  rewrite andb_true_iff, N.eqb_eq, IH.
  split; [intros [-> ->]; reflexivity|intros H; inversion H; auto].
Qed.

Lemma sample_table_ok : PyStr.lower_table_ok PyStr.sample_table.
Proof.
  intros before c after Hc. unfold PyStr.sample_table.
  destruct (c =? 8490)%N eqn:E1; [|destruct (c =? 304)%N eqn:E2].
  - split; [discriminate|]. repeat constructor; lia.
  - split; [discriminate|]. repeat constructor; lia.
  - split; [discriminate|].
    repeat constructor; intros ->; vm_compute in Hc; apply Hc; reflexivity.
Qed.

(** C1. The confirmation gate approves exactly the eight spellings of
    "yes" in upper and lower case, that is, the responses equal to "yes"
    when letter case is ignored; the empty response, "y", "Yes please" and
    "no" are denied. *)
Theorem gate_approves_iff_yes (tbl : list N -> N -> list N -> list N) :
  PyStr.lower_table_ok tbl ->
  (forall response,
      gate_approves tbl response = true <-> In response yes_spellings) /\
  gate_approves tbl (PyStr.lit "") = false /\
  gate_approves tbl (PyStr.lit "y") = false /\
  gate_approves tbl (PyStr.lit "Yes please") = false /\
  gate_approves tbl (PyStr.lit "no") = false.
Proof.
  intros Hok. split; [|repeat split; reflexivity].
  intros response. unfold gate_approves, gate_denies.
  rewrite negb_involutive, eqb_eq. split.
  - apply lower_yes_inv, Hok.
  - intros H. vm_compute in H.
    repeat (destruct H as [<-|H]; [reflexivity|]). contradiction.
Qed.

Lemma gate_approves_iff_yes_witness :
  (gate_approves PyStr.sample_table (PyStr.lit "YeS") = true <->
   In (PyStr.lit "YeS") yes_spellings) /\
  gate_approves PyStr.sample_table (PyStr.lit "Yes please") = false.
Proof.
  destruct (gate_approves_iff_yes PyStr.sample_table sample_table_ok)
    as (Hiff & _ & _ & Hplease & _).
  split; [apply Hiff|exact Hplease].
Defined.

(** ** Clean *)

Lemma set_dist_same (w : World) : set_dist (dist w) w = w.
Proof. destruct w; reflexivity. Qed.

Lemma named_refl (e : Entry) : named (entry_name e) e = true.
Proof. unfold named. apply String.eqb_refl. Qed.

(** Unlinking the name of the first entry acts on that entry. *)
Lemma unlink_head (w : World) (e : Entry) (rest : list Entry) (l r : bool) :
  dist w = Directory (e :: rest) l r ->
  unlink (entry_name e) w =
    if deletable e then (Ok tt, set_dist (Directory rest l r) w)
    else (Raise (OSError (if entry_unlinkable e
                          then IsADirectoryError else PermissionError)), w).
Proof.
  intros H. unfold unlink, deletable. rewrite H. simpl.
  rewrite named_refl.
  destruct (entry_unlinkable e), (entry_is_dir e); reflexivity.
Qed.

(** The loop of [clean_dist] over a directory it listed: when every entry
    can be deleted it empties the directory. *)
Lemma unlink_all (entries : list Entry) :
  forall (w : World) (l r : bool),
    dist w = Directory entries l r ->
    forallb deletable entries = true ->
    for_each (map entry_name entries) unlink w =
      (Ok tt, set_dist (Directory [] l r) w).
Proof.
  induction entries as [|e rest IH]; intros w l r Hd Hall; simpl.
  - unfold ret. rewrite <- Hd. destruct w; reflexivity.
  - simpl in Hall. apply andb_true_iff in Hall as [He Hrest].
    unfold bind. rewrite (unlink_head w e rest l r Hd), He.
    rewrite (IH (set_dist (Directory rest l r) w) l r eq_refl Hrest).
    reflexivity.
Qed.

(** When some entry cannot be deleted the loop stops at the first such
    entry with an [OSError]; that entry stays in the directory. *)
Lemma unlink_stops (entries : list Entry) :
  forall (w : World) (l r : bool),
    dist w = Directory entries l r ->
    forallb deletable entries = false ->
    exists kind e rest,
      for_each (map entry_name entries) unlink w =
        (Raise (OSError kind), set_dist (Directory (e :: rest) l r) w) /\
      deletable e = false /\ In e entries.
Proof.
  induction entries as [|e rest IH]; intros w l r Hd Hall; simpl in *.
  - discriminate.
  - unfold bind. rewrite (unlink_head w e rest l r Hd).
    destruct (deletable e) eqn:He; simpl in Hall.
    + destruct (IH (set_dist (Directory rest l r) w) l r eq_refl Hall)
        as (kind & e' & rest' & Hrun & He' & Hin).
      rewrite Hrun. exists kind, e', rest'. repeat split; auto.
    + eexists _, e, rest. repeat split; auto.
      rewrite <- Hd. destruct w; reflexivity.
Qed.

(** What [clean_dist] does, by the state of [dist]. *)
Lemma clean_dist_absent (w : World) :
  dist w = Absent -> clean_dist w = (Ok tt, clean_started w).
Proof. destruct w; simpl; intros ->; reflexivity. Qed.

Lemma clean_dist_not_a_directory (w : World) :
  dist w = NotADirectory ->
  clean_dist w = (Raise (OSError NotADirectoryError), clean_started w).
Proof. destruct w; simpl; intros ->; reflexivity. Qed.

Lemma clean_dist_directory (w : World) (entries : list Entry) (l r : bool) :
  dist w = Directory entries l r ->
  clean_dist w =
    bind (for_each (if l then map entry_name entries else []) unlink)
         (fun _ => rmdir) (clean_started w).
Proof. destruct w; simpl; intros ->; destruct l; reflexivity. Qed.

Lemma clean_dist_listed (w : World) (entries : list Entry) (r : bool) :
  dist w = Directory entries true r ->
  forallb deletable entries = true ->
  clean_dist w =
    if r then (Ok tt, set_dist Absent (clean_started w))
    else (Raise (OSError PermissionError),
          set_dist (Directory [] true r) (clean_started w)).
Proof.
  intros Hd Hall. rewrite (clean_dist_directory w entries true r Hd).
  unfold bind.
  rewrite (unlink_all entries (clean_started w) true r Hd Hall).
  unfold rmdir. simpl. destruct r; reflexivity.
Qed.

Lemma clean_dist_undeletable (w : World) (entries : list Entry) (r : bool) :
  dist w = Directory entries true r ->
  forallb deletable entries = false ->
  exists kind e rest,
    clean_dist w =
      (Raise (OSError kind),
       set_dist (Directory (e :: rest) true r) (clean_started w)) /\
    deletable e = false /\ In e entries.
Proof.
  intros Hd Hall. rewrite (clean_dist_directory w entries true r Hd).
  unfold bind.
  destruct (unlink_stops entries (clean_started w) true r Hd Hall)
    as (kind & e & rest & Hrun & He & Hin).
  rewrite Hrun. exists kind, e, rest. auto.
Qed.

Lemma clean_dist_unlisted (w : World) (entries : list Entry) (r : bool) :
  dist w = Directory entries false r ->
  clean_dist w =
    if negb r then (Raise (OSError PermissionError), clean_started w)
    else match entries with
         | [] => (Ok tt, set_dist Absent (clean_started w))
         | _ :: _ => (Raise (OSError DirectoryNotEmpty), clean_started w)
         end.
Proof. destruct w; simpl; intros ->; reflexivity. Qed.

(** Every run of [clean_dist] adds its entry to the log and its banner to
    the output and touches nothing else but [dist]; it returns with [dist]
    absent or raises an [OSError]. *)
Lemma clean_dist_outcome (w : World) :
  exists d,
    snd (clean_dist w) = set_dist d (clean_started w) /\
    (fst (clean_dist w) = Ok tt /\ d = Absent \/
     exists kind, fst (clean_dist w) = Raise (OSError kind)).
Proof.
  destruct (dist w) as [| |entries l r] eqn:Hd.
  - rewrite (clean_dist_absent w Hd). exists Absent.
    split; [|left; split; reflexivity].
    simpl. rewrite <- Hd. symmetry. apply (set_dist_same (clean_started w)).
  - rewrite (clean_dist_not_a_directory w Hd). exists NotADirectory.
    split; [|right; eexists; reflexivity].
    simpl. rewrite <- Hd. symmetry. apply (set_dist_same (clean_started w)).
  - destruct l.
    + destruct (forallb deletable entries) eqn:Hall.
      * rewrite (clean_dist_listed w entries r Hd Hall).
        destruct r; eexists; split; simpl; eauto.
      * destruct (clean_dist_undeletable w entries r Hd Hall)
          as (kind & e & rest & Hrun & _).
        rewrite Hrun. eexists. split; simpl; eauto.
    + rewrite (clean_dist_unlisted w entries r Hd).
      exists (if r then match entries with [] => Absent | _ => dist w end
              else dist w).
      destruct r; simpl; [destruct entries; simpl|]; (split; [|eauto]);
        try reflexivity; symmetry; apply (set_dist_same (clean_started w)).
Qed.

(** A run of [clean_dist] that returns has removed [dist]. *)
Lemma clean_dist_ok_absent (w w' : World) :
  clean_dist w = (Ok tt, w') -> dist w' = Absent.
Proof.
  intros H. destruct (clean_dist_outcome w) as (d & Hw & Hr).
  rewrite H in Hw, Hr. simpl in Hw, Hr. subst w'.
  destruct Hr as [[_ ->]|[kind Hk]]; [reflexivity|discriminate].
Qed.

Lemma clean_dist_raises_oserror (w : World) (e : Exn) (w' : World) :
  clean_dist w = (Raise e, w') -> exists kind, e = OSError kind.
Proof.
  intros H. destruct (clean_dist_outcome w) as (d & _ & Hr).
  rewrite H in Hr. simpl in Hr.
  destruct Hr as [[Hk _]|[kind Hk]]; [discriminate|].
  inversion Hk. eauto.
Qed.

Lemma clean_dist_logs (w : World) :
  entered (snd (clean_dist w)) = entered w ++ [Clean] /\
  spawned (snd (clean_dist w)) = spawned w.
Proof.
  destruct (clean_dist_outcome w) as (d & -> & _). auto.
Qed.



(** C8. [clean_dist] is idempotent.  Without [dist] it returns and leaves
    [dist] absent, adding only its progress line; after a run that
    returned, a second run returns as well and changes nothing in [dist];
    and two runs in a row end as one run does, with the same result and the
    same [dist]. *)
Theorem clean_dist_idempotent :
  (forall w, dist w = Absent ->
     clean_dist w = (Ok tt, clean_started w) /\
     dist (clean_started w) = Absent) /\
  (forall w w1, clean_dist w = (Ok tt, w1) ->
     clean_dist w1 = (Ok tt, clean_started w1) /\
     dist (clean_started w1) = dist w1) /\
  (forall w,
     fst ((clean_dist ;; clean_dist) w) = fst (clean_dist w) /\
     dist (snd ((clean_dist ;; clean_dist) w)) = dist (snd (clean_dist w))).
Proof.
  assert (Hsecond : forall w w1, clean_dist w = (Ok tt, w1) ->
            clean_dist w1 = (Ok tt, clean_started w1)).
  { intros w w1 H. apply clean_dist_absent, (clean_dist_ok_absent w w1 H). }
  split; [|split].
  - intros w Hd. split; [apply clean_dist_absent, Hd|exact Hd].
  - intros w w1 H. split; [apply (Hsecond w w1 H)|reflexivity].
  - intros w. unfold bind.
    destruct (clean_dist w) as [[[]|e] w1] eqn:H; simpl; [|auto].
    rewrite (Hsecond w w1 H). simpl. auto.
Qed.

Lemma clean_dist_idempotent_witness :
  clean_dist (set_dist Absent (clean_started (world_of stale_dist))) =
    (Ok tt,
     clean_started (set_dist Absent (clean_started (world_of stale_dist)))).
Proof.
  apply (proj1 (proj2 clean_dist_idempotent) (world_of stale_dist)).
  reflexivity.
Defined.

(** ** The command runner *)

Lemma run_command_exited (env : Env) (cmd : list string) (check : bool)
    (w : World) (rc : Z) (out err : string) (d : Dist) :
  spawn env cmd (dist w) = (Exited rc out err, d) ->
  run_command env cmd check w =
    if check && negb (rc =? 0)%Z
    then (Raise (CalledProcessError rc cmd out err), command_ran cmd d w)
    else (Ok (mkCompleted cmd rc out err),
          echo Stderr err (echo Stdout out (command_ran cmd d w))).
Proof.
  intros H. unfold run_command, bind, print, subprocess_run. simpl.
  rewrite H. destruct (check && negb (rc =? 0)%Z); [reflexivity|].
  simpl. destruct out, err; reflexivity.
Qed.

Lemma run_command_cannot_spawn (env : Env) (cmd : list string) (check : bool)
    (w : World) (kind : OSErrorKind) (d : Dist) :
  spawn env cmd (dist w) = (CannotSpawn kind, d) ->
  run_command env cmd check w = (Raise (OSError kind), command_ran cmd d w).
Proof.
  intros H. unfold run_command, bind, print, subprocess_run. simpl.
  rewrite H. reflexivity.
Qed.

Lemma run_command_interrupted (env : Env) (cmd : list string) (check : bool)
    (w : World) (d : Dist) :
  spawn env cmd (dist w) = (SpawnInterrupted, d) ->
  run_command env cmd check w = (Raise KeyboardInterrupt, command_ran cmd d w).
Proof.
  intros H. unfold run_command, bind, print, subprocess_run. simpl.
  rewrite H. reflexivity.
Qed.

Lemma output_echo (to : Stream) (text : string) (w : World) :
  output (echo to text w) = output w ++ echoed to text.
Proof.
  unfold echo, echoed. destruct (truthy text); simpl;
    [reflexivity|symmetry; apply app_nil_r].
Qed.

(** The logs after [run_command], whatever the command did. *)
Lemma run_command_logs (env : Env) (cmd : list string) (check : bool)
    (w : World) :
  spawned (snd (run_command env cmd check w)) = spawned w ++ [cmd] /\
  entered (snd (run_command env cmd check w)) = entered w.
Proof.
  destruct (spawn env cmd (dist w)) as [[rc out err|kind|] d] eqn:H.
  - rewrite (run_command_exited env cmd check w rc out err d H).
    destruct (check && negb (rc =? 0)%Z); simpl; [auto|].
    unfold echo. destruct (truthy out), (truthy err); simpl; auto.
  - rewrite (run_command_cannot_spawn env cmd check w kind d H). auto.
  - rewrite (run_command_interrupted env cmd check w d H). auto.
Qed.

(** A [CalledProcessError] out of the runner carries the return code of
    the command it ran, and that code is not zero. *)
Lemma run_command_failure_origin (env : Env) (cmd : list string) (check : bool)
    (w : World) (rc : Z) (c : list string) (out err : string) (w' : World) :
  run_command env cmd check w = (Raise (CalledProcessError rc c out err), w') ->
  rc <> 0%Z /\
  exists d d', spawn env c d = (Exited rc out err, d').
Proof.
  destruct (spawn env cmd (dist w)) as [[rc0 out0 err0|kind|] d] eqn:H.
  - rewrite (run_command_exited env cmd check w rc0 out0 err0 d H).
    destruct (check && negb (rc0 =? 0)%Z) eqn:E; [|discriminate].
    intros Heq. inversion Heq; subst.
    apply andb_true_iff in E as [_ E]. apply negb_true_iff, Z.eqb_neq in E.
    eauto.
  - rewrite (run_command_cannot_spawn env cmd check w kind d H). discriminate.
  - rewrite (run_command_interrupted env cmd check w d H). discriminate.
Qed.

(** What the command runner writes, by the way the call ends.  When it
    returns a result (without [check], or with return code 0) it writes
    the captured standard output to stdout when it is not empty and then
    the captured standard error to stderr when it is not empty; with
    [check] and a non-zero return code it raises [CalledProcessError]
    having written only its "Running:" line. *)
Theorem run_command_passes_output_through
    (env : Env) (cmd : list string) (check : bool) (w : World)
    (rc : Z) (out err : string) (d : Dist) :
  spawn env cmd (dist w) = (Exited rc out err, d) ->
  (check = false \/ rc = 0%Z ->
   exists w',
     run_command env cmd check w = (Ok (mkCompleted cmd rc out err), w') /\
     output w' =
       output w ++ [Print Stdout ("Running: " ++ String.concat " " cmd)]
                ++ echoed Stdout out ++ echoed Stderr err) /\
  (check = true -> rc <> 0%Z ->
   exists w',
     run_command env cmd check w =
       (Raise (CalledProcessError rc cmd out err), w') /\
     output w' =
       output w ++ [Print Stdout ("Running: " ++ String.concat " " cmd)]).
Proof.
  intros H. rewrite (run_command_exited env cmd check w rc out err d H).
  split.
  - intros Hc.
    assert (check && negb (rc =? 0)%Z = false) as ->.
    { destruct Hc as [->| ->]; [reflexivity|apply andb_false_r]. }
    eexists. split; [reflexivity|].
    rewrite !output_echo. simpl. rewrite <- !app_assoc. reflexivity.
  - intros -> Hrc. apply Z.eqb_neq in Hrc. rewrite Hrc. simpl.
    eexists. split; reflexivity.
Qed.

Lemma run_command_passes_output_through_witness :
  (exists w',
     run_command (sample_env 0 0 0 "no") ["/usr/bin/python3"; "-m"; "build"]
                 true (world_of Absent) =
       (Ok (mkCompleted ["/usr/bin/python3"; "-m"; "build"] 0
                        "creating wheel" "warning: no license file"), w') /\
     output w' =
       [] ++ [Print Stdout "Running: /usr/bin/python3 -m build"]
          ++ [Print Stdout "creating wheel"]
          ++ [Print Stderr "warning: no license file"]) /\
  (exists w',
     run_command (sample_env 1 0 0 "no") ["/usr/bin/python3"; "-m"; "build"]
                 true (world_of Absent) =
       (Raise (CalledProcessError 1 ["/usr/bin/python3"; "-m"; "build"]
                 "creating wheel" "warning: no license file"), w') /\
     output w' = [] ++ [Print Stdout "Running: /usr/bin/python3 -m build"]).
Proof.
  split.
  - apply (run_command_passes_output_through
             (sample_env 0 0 0 "no") ["/usr/bin/python3"; "-m"; "build"] true
             (world_of Absent) 0 "creating wheel" "warning: no license file"
             _ eq_refl).
    right. reflexivity.
  - apply (run_command_passes_output_through
             (sample_env 1 0 0 "no") ["/usr/bin/python3"; "-m"; "build"] true
             (world_of Absent) 1 "creating wheel" "warning: no license file"
             _ eq_refl); [reflexivity|discriminate].
Defined.

(** C4.  The runner captures both streams in order to print them (lines
    18-21), and it does print them when the call returns.  At the failing
    input it does not: a build that ends with return code 1 under [check]
    has captured text on both streams, and the script writes neither; its
    whole output is the "Running:" line.  The same command with the same
    captured text, run without [check], has both streams written. *)
Lemma run_command_drops_output_of_failed_command :
  spawn (sample_env 1 0 0 "no") ["/usr/bin/python3"; "-m"; "build"] Absent =
    (Exited 1 "creating wheel" "warning: no license file", Absent) /\
  truthy "creating wheel" = true /\
  truthy "warning: no license file" = true /\
  output (snd (run_command (sample_env 1 0 0 "no")
                 ["/usr/bin/python3"; "-m"; "build"] true (world_of Absent))) =
    [Print Stdout "Running: /usr/bin/python3 -m build"] /\
  ~ In (Print Stdout "creating wheel")
       (output (snd (run_command (sample_env 1 0 0 "no")
                 ["/usr/bin/python3"; "-m"; "build"] true (world_of Absent)))) /\
  ~ In (Print Stderr "warning: no license file")
       (output (snd (run_command (sample_env 1 0 0 "no")
                 ["/usr/bin/python3"; "-m"; "build"] true (world_of Absent)))) /\
  output (snd (run_command (sample_env 1 0 0 "no")
                 ["/usr/bin/python3"; "-m"; "build"] false (world_of Absent))) =
    [Print Stdout "Running: /usr/bin/python3 -m build";
     Print Stdout "creating wheel";
     Print Stderr "warning: no license file"].
Proof.
  repeat split; try reflexivity.
  - vm_compute. intros [H|[]]. discriminate.
  - vm_compute. intros [H|[]]. discriminate.
Qed.

(** C6. With [check], a command that ends with a non-zero return code
    makes the runner raise [CalledProcessError] with that code; without
    [check] the runner returns the result, which carries the code, and
    raises nothing.  A command ending with status 3 is the case in point. *)
Theorem run_command_check
    (env : Env) (cmd : list string) (w : World)
    (rc : Z) (out err : string) (d : Dist) :
  spawn env cmd (dist w) = (Exited rc out err, d) ->
  (rc <> 0%Z ->
   run_command env cmd true w =
     (Raise (CalledProcessError rc cmd out err), command_ran cmd d w)) /\
  (exists w',
     run_command env cmd false w = (Ok (mkCompleted cmd rc out err), w') /\
     returncode (mkCompleted cmd rc out err) = rc).
Proof.
  intros H. split.
  - intros Hrc. rewrite (run_command_exited env cmd true w rc out err d H).
    apply Z.eqb_neq in Hrc. rewrite Hrc. reflexivity.
  - rewrite (run_command_exited env cmd false w rc out err d H). simpl.
    eexists. split; reflexivity.
Qed.

Lemma run_command_check_witness :
  run_command (sample_env 0 3 0 "no") ["twine"; "check"; "dist/*"] true
              (world_of stale_dist) =
    (Raise (CalledProcessError 3 ["twine"; "check"; "dist/*"] "checked" ""),
     command_ran ["twine"; "check"; "dist/*"] stale_dist
                 (world_of stale_dist)) /\
  (exists w',
     run_command (sample_env 0 3 0 "no") ["twine"; "check"; "dist/*"] false
                 (world_of stale_dist) =
       (Ok (mkCompleted ["twine"; "check"; "dist/*"] 3 "checked" ""), w') /\
     returncode (mkCompleted ["twine"; "check"; "dist/*"] 3 "checked" "") = 3%Z).
Proof.
  destruct (run_command_check (sample_env 0 3 0 "no")
              ["twine"; "check"; "dist/*"] (world_of stale_dist)
              3 "checked" "" stale_dist eq_refl) as [Hraise Hret].
  split; [apply Hraise; discriminate|exact Hret].
Defined.

(** ** The stages *)

Lemma run_stage (env : Env) (s : Stage) (banner : string)
    (cmd : list string) (w : World) :
  (enter s ;; print banner ;; run_command env cmd true ;; ret tt) w =
    (discard (fst (run_command env cmd true (stage_started s banner w))),
     snd (run_command env cmd true (stage_started s banner w))).
Proof.
  unfold bind at 1 2 3. unfold enter, print, ret. simpl.
  fold (stage_started s banner w).
  destruct (run_command env cmd true (stage_started s banner w)) as [[r|e] w'];
    reflexivity.
Qed.

Lemma build_package_run (env : Env) (w : World) :
  build_package env w =
    (discard (fst (run_command env (build_cmd env) true
                     (stage_started Build "Building package..." w))),
     snd (run_command env (build_cmd env) true
            (stage_started Build "Building package..." w))).
Proof. apply run_stage. Qed.

Lemma check_package_run (env : Env) (w : World) :
  check_package env w =
    (discard (fst (run_command env check_cmd true
                     (stage_started Check "Checking package..." w))),
     snd (run_command env check_cmd true
            (stage_started Check "Checking package..." w))).
Proof. apply run_stage. Qed.

Lemma publish_test_run (env : Env) (w : World) :
  publish_test env w =
    (discard (fst (run_command env test_upload_cmd true
                     (stage_started PublishTest "Publishing to Test PyPI..." w))),
     snd (run_command env test_upload_cmd true
            (stage_started PublishTest "Publishing to Test PyPI..." w))).
Proof. apply run_stage. Qed.

(** The logs after Build and Check, whatever their result. *)
Lemma build_package_logs (env : Env) (w : World) :
  entered (snd (build_package env w)) = entered w ++ [Build] /\
  spawned (snd (build_package env w)) = spawned w ++ [build_cmd env].
Proof.
  rewrite build_package_run. simpl.
  destruct (run_command_logs env (build_cmd env) true
              (stage_started Build "Building package..." w)) as [Hs He].
  rewrite Hs, He. auto.
Qed.

Lemma check_package_logs (env : Env) (w : World) :
  entered (snd (check_package env w)) = entered w ++ [Check] /\
  spawned (snd (check_package env w)) = spawned w ++ [check_cmd].
Proof.
  rewrite check_package_run. simpl.
  destruct (run_command_logs env check_cmd true
              (stage_started Check "Checking package..." w)) as [Hs He].
  rewrite Hs, He. auto.
Qed.

(** A build tool that ends with a non-zero return code makes
    [build_package] raise. *)
Lemma build_package_failed (env : Env) (w : World)
    (rc : Z) (out err : string) (d : Dist) :
  spawn env (build_cmd env) (dist w) = (Exited rc out err, d) ->
  rc <> 0%Z ->
  exists w',
    build_package env w =
      (Raise (CalledProcessError rc (build_cmd env) out err), w').
Proof.
  intros H Hrc. rewrite build_package_run.
  rewrite (run_command_exited env (build_cmd env) true
             (stage_started Build "Building package..." w) rc out err d H).
  apply Z.eqb_neq in Hrc. rewrite Hrc. simpl. eauto.
Qed.

(** The action [all] as the three stages in sequence. *)
Lemma dispatch_all (env : Env) (w : World) :
  dispatch env "all" w =
    (clean_dist ;;
     build_package env ;;
     check_package env ;;
     print (newline ++ "Package built and checked successfully!") ;;
     print "Run 'python scripts/publish.py test' to publish to Test PyPI" ;;
     print "Run 'python scripts/publish.py publish' to publish to PyPI") w.
Proof. reflexivity. Qed.

(** C5. The action [all] enters Clean, Build and Check in that order and
    stops at the first stage that raises: after a failing Clean nothing is
    spawned; after a failing Build (a build tool ending with a non-zero
    return code is one) only the build command was spawned and Check was
    never entered; when all three return, exactly the build command and
    then the check command were spawned. *)
Theorem all_runs_clean_build_check (env : Env) (w : World) :
  (forall e w1,
      clean_dist w = (Raise e, w1) ->
      dispatch env "all" w = (Raise e, w1) /\
      entered w1 = entered w ++ [Clean] /\
      spawned w1 = spawned w) /\
  (forall w1 e w2,
      clean_dist w = (Ok tt, w1) ->
      build_package env w1 = (Raise e, w2) ->
      dispatch env "all" w = (Raise e, w2) /\
      entered w2 = entered w ++ [Clean; Build] /\
      spawned w2 = spawned w ++ [build_cmd env]) /\
  (forall w1 rc out err d,
      clean_dist w = (Ok tt, w1) ->
      spawn env (build_cmd env) (dist w1) = (Exited rc out err, d) ->
      rc <> 0%Z ->
      exists w2,
        dispatch env "all" w =
          (Raise (CalledProcessError rc (build_cmd env) out err), w2) /\
        entered w2 = entered w ++ [Clean; Build] /\
        spawned w2 = spawned w ++ [build_cmd env]) /\
  (forall w1 w2 e w3,
      clean_dist w = (Ok tt, w1) ->
      build_package env w1 = (Ok tt, w2) ->
      check_package env w2 = (Raise e, w3) ->
      dispatch env "all" w = (Raise e, w3) /\
      entered w3 = entered w ++ [Clean; Build; Check] /\
      spawned w3 = spawned w ++ [build_cmd env; check_cmd]) /\
  (forall w1 w2 w3,
      clean_dist w = (Ok tt, w1) ->
      build_package env w1 = (Ok tt, w2) ->
      check_package env w2 = (Ok tt, w3) ->
      exists w4,
        dispatch env "all" w = (Ok tt, w4) /\
        entered w4 = entered w ++ [Clean; Build; Check] /\
        spawned w4 = spawned w ++ [build_cmd env; check_cmd]).
Proof.
  assert (Hclean : forall r w1, clean_dist w = (r, w1) ->
            entered w1 = entered w ++ [Clean] /\ spawned w1 = spawned w).
  { intros r w1 H. pose proof (clean_dist_logs w) as L.
    rewrite H in L. exact L. }
  assert (Hbuild : forall w1 r w2, build_package env w1 = (r, w2) ->
            entered w2 = entered w1 ++ [Build] /\
            spawned w2 = spawned w1 ++ [build_cmd env]).
  { intros w1 r w2 H. pose proof (build_package_logs env w1) as L.
    rewrite H in L. exact L. }
  assert (Hcheck : forall w2 r w3, check_package env w2 = (r, w3) ->
            entered w3 = entered w2 ++ [Check] /\
            spawned w3 = spawned w2 ++ [check_cmd]).
  { intros w2 r w3 H. pose proof (check_package_logs env w2) as L.
    rewrite H in L. exact L. }
  assert (Hfail : forall w1 e w2,
            clean_dist w = (Ok tt, w1) ->
            build_package env w1 = (Raise e, w2) ->
            dispatch env "all" w = (Raise e, w2) /\
            entered w2 = entered w ++ [Clean; Build] /\
            spawned w2 = spawned w ++ [build_cmd env]).
  { intros w1 e w2 Hc Hb. rewrite dispatch_all. unfold bind.
    rewrite Hc, Hb.
    destruct (Hclean _ _ Hc) as [E1 S1]. destruct (Hbuild _ _ _ Hb) as [E2 S2].
    rewrite E2, S2, E1, S1, <- app_assoc. auto. }
  split; [|split; [|split; [|split]]].
  - intros e w1 Hc. destruct (Hclean _ _ Hc) as [E1 S1].
    split; [|auto].
    rewrite dispatch_all. unfold bind. rewrite Hc. reflexivity.
  - exact Hfail.
  - intros w1 rc out err d Hc Hs Hrc.
    destruct (build_package_failed env w1 rc out err d Hs Hrc) as [w2 Hb].
    exists w2. apply (Hfail w1 _ w2 Hc Hb).
  - intros w1 w2 e w3 Hc Hb Hk.
    destruct (Hclean _ _ Hc) as [E1 S1]. destruct (Hbuild _ _ _ Hb) as [E2 S2].
    destruct (Hcheck _ _ _ Hk) as [E3 S3].
    split.
    + rewrite dispatch_all. unfold bind. rewrite Hc, Hb, Hk. reflexivity.
    + rewrite E3, E2, E1, S3, S2, S1, <- !app_assoc. auto.
  - intros w1 w2 w3 Hc Hb Hk.
    destruct (Hclean _ _ Hc) as [E1 S1]. destruct (Hbuild _ _ _ Hb) as [E2 S2].
    destruct (Hcheck _ _ _ Hk) as [E3 S3].
    rewrite dispatch_all. unfold bind at 1 2 3. rewrite Hc, Hb, Hk.
    eexists. split; [reflexivity|]. simpl.
    rewrite E3, E2, E1, S3, S2, S1, <- !app_assoc. auto.
Qed.

Lemma all_runs_clean_build_check_witness :
  exists w2,
    dispatch (sample_env 1 0 0 "no") "all" (world_of stale_dist) =
      (Raise (CalledProcessError 1 (build_cmd (sample_env 1 0 0 "no"))
                "creating wheel" "warning: no license file"), w2) /\
    entered w2 = [] ++ [Clean; Build] /\
    spawned w2 = [] ++ [build_cmd (sample_env 1 0 0 "no")].
Proof.
  destruct (all_runs_clean_build_check (sample_env 1 0 0 "no")
              (world_of stale_dist)) as (_ & _ & Hbuild & _).
  apply (Hbuild (set_dist Absent (clean_started (world_of stale_dist)))
                1%Z "creating wheel" "warning: no license file" Absent).
  - reflexivity.
  - reflexivity.
  - discriminate.
Defined.

(** ** The production publish *)

Lemma publish_pypi_line (env : Env) (w : World) (response : PyStr.t) :
  keyboard env = Line response ->
  publish_pypi env w =
    if gate_denies (unicode_lower env) response
    then (Ok tt, emit (Print Stdout "Cancelled.") (publish_asked w))
    else (discard (fst (run_command env upload_cmd true (publish_asked w))),
          snd (run_command env upload_cmd true (publish_asked w))).
Proof.
  intros H. unfold publish_pypi, input.
  unfold bind at 1 2 3. unfold enter, print. simpl. rewrite H.
  fold (publish_asked w).
  destruct (gate_denies (unicode_lower env) response); [reflexivity|].
  unfold bind, ret, upload_cmd, publish_asked, stage_started.
  destruct (run_command _ _ _ _) as [[r|e] w']; reflexivity.
Qed.

Lemma publish_pypi_no_line (env : Env) (w : World) :
  (keyboard env = EndOfInput ->
   publish_pypi env w = (Raise EOFError, publish_asked w)) /\
  (keyboard env = Interrupt ->
   publish_pypi env w = (Raise KeyboardInterrupt, publish_asked w)).
Proof.
  split; intros H; unfold publish_pypi, input;
    unfold bind at 1 2 3; unfold enter, print; simpl; rewrite H; reflexivity.
Qed.

(** C2. When the gate denies the response, [publish_pypi] returns without
    raising and without spawning any command: no upload is made, [dist] is
    untouched, and the stage has printed its banner, the question and
    "Cancelled.". *)
Theorem publish_denied_uploads_nothing
    (env : Env) (w : World) (response : PyStr.t) :
  keyboard env = Line response ->
  gate_approves (unicode_lower env) response = false ->
  exists w',
    publish_pypi env w = (Ok tt, w') /\
    spawned w' = spawned w /\
    dist w' = dist w /\
    output w' =
      output w ++
      [Print Stdout "Publishing to PyPI...";
       Prompt "Are you sure you want to publish to PyPI? (yes/no): ";
       Print Stdout "Cancelled."].
Proof.
  intros Hk Hgate. unfold gate_approves in Hgate.
  apply negb_false_iff in Hgate.
  rewrite (publish_pypi_line env w response Hk), Hgate.
  eexists. split; [reflexivity|]. simpl.
  rewrite <- !app_assoc. auto.
Qed.

Lemma publish_denied_uploads_nothing_witness :
  exists w',
    publish_pypi (sample_env 0 0 0 "Yes please") (world_of stale_dist) =
      (Ok tt, w') /\
    spawned w' = [] /\
    dist w' = stale_dist /\
    output w' =
      [] ++
      [Print Stdout "Publishing to PyPI...";
       Prompt "Are you sure you want to publish to PyPI? (yes/no): ";
       Print Stdout "Cancelled."].
Proof.
  apply (publish_denied_uploads_nothing (sample_env 0 0 0 "Yes please")
           (world_of stale_dist) (PyStr.lit "Yes please")); reflexivity.
Defined.

(** ** The orchestrator *)

Lemma main_parsed (env : Env) (argv : list string) (action : string)
    (w : World) :
  Argparse.scan false None [] argv = Argparse.Namespace action ->
  main env argv w =
    try_except (dispatch env action ;; print success_marker) handler w.
Proof.
  intros H. unfold main. unfold bind at 1. unfold parse_args.
  rewrite H. reflexivity.
Qed.

Lemma main_returns (env : Env) (argv : list string) (action : string)
    (w w1 : World) :
  Argparse.scan false None [] argv = Argparse.Namespace action ->
  dispatch env action w = (Ok tt, w1) ->
  main env argv w = (Ok tt, emit (Print Stdout success_marker) w1).
Proof.
  intros Hp Hd. rewrite (main_parsed env argv action w Hp).
  unfold try_except, bind. rewrite Hd. reflexivity.
Qed.

Lemma main_raises (env : Env) (argv : list string) (action : string)
    (w w1 : World) (e : Exn) :
  Argparse.scan false None [] argv = Argparse.Namespace action ->
  dispatch env action w = (Raise e, w1) ->
  main env argv w = handler e w1.
Proof.
  intros Hp Hd. rewrite (main_parsed env argv action w Hp).
  unfold try_except, bind. rewrite Hd. reflexivity.
Qed.

Lemma stage_failure_origin (env : Env) (s : Stage) (banner : string)
    (cmd : list string) (w : World)
    (rc : Z) (c : list string) (out err : string) (w' : World) :
  (enter s ;; print banner ;; run_command env cmd true ;; ret tt) w =
    (Raise (CalledProcessError rc c out err), w') ->
  rc <> 0%Z /\ exists d d', spawn env c d = (Exited rc out err, d').
Proof.
  rewrite run_stage.
  destruct (run_command env cmd true (stage_started s banner w))
    as [[r|e] w''] eqn:E; simpl; intros H; inversion H; subst.
  apply (run_command_failure_origin env cmd true _ rc c out err w' E).
Qed.

Lemma publish_pypi_failure_origin (env : Env) (w : World)
    (rc : Z) (c : list string) (out err : string) (w' : World) :
  publish_pypi env w = (Raise (CalledProcessError rc c out err), w') ->
  rc <> 0%Z /\ exists d d', spawn env c d = (Exited rc out err, d').
Proof.
  destruct (keyboard env) as [response| |] eqn:Hk.
  - rewrite (publish_pypi_line env w response Hk).
    destruct (gate_denies (unicode_lower env) response); [discriminate|].
    destruct (run_command env upload_cmd true (publish_asked w))
      as [[r|e] w''] eqn:E; simpl; intros H; inversion H; subst.
    apply (run_command_failure_origin env upload_cmd true _ rc c out err w' E).
  - rewrite (proj1 (publish_pypi_no_line env w) Hk). discriminate.
  - rewrite (proj2 (publish_pypi_no_line env w) Hk). discriminate.
Qed.

(** A [CalledProcessError] out of any action carries the non-zero return
    code of a command that the run spawned. *)
Lemma dispatch_failure_origin (env : Env) (action : string) (w : World)
    (rc : Z) (c : list string) (out err : string) (w' : World) :
  dispatch env action w = (Raise (CalledProcessError rc c out err), w') ->
  rc <> 0%Z /\ exists d d', spawn env c d = (Exited rc out err, d').
Proof.
  unfold dispatch.
  destruct (String.eqb action "clean").
  { intros H. apply clean_dist_raises_oserror in H as [kind H]. discriminate. }
  destruct (String.eqb action "build").
  { apply stage_failure_origin. }
  destruct (String.eqb action "check").
  { apply stage_failure_origin. }
  destruct (String.eqb action "test").
  { apply stage_failure_origin. }
  destruct (String.eqb action "publish").
  { apply publish_pypi_failure_origin. }
  destruct (String.eqb action "all"); [|discriminate].
  unfold bind at 1.
  destruct (clean_dist w) as [[[]|e1] w1] eqn:Hc.
  2:{ intros H. inversion H; subst.
      apply clean_dist_raises_oserror in Hc as [kind Hc]. discriminate. }
  unfold bind at 1.
  destruct (build_package env w1) as [[[]|e2] w2] eqn:Hb.
  2:{ intros H. inversion H; subst.
      apply (stage_failure_origin _ _ _ _ _ _ _ _ _ _ Hb). }
  unfold bind at 1.
  destruct (check_package env w2) as [[[]|e3] w3] eqn:Hk.
  2:{ intros H. inversion H; subst.
      apply (stage_failure_origin _ _ _ _ _ _ _ _ _ _ Hk). }
  discriminate.
Qed.

(** C3, as the script has it.  For every action the parser accepts: a stage
    that raises [CalledProcessError] is caught by [main], which prints one
    line, the failure marker with the return code of the failed command,
    and leaves with [sys.exit(1)].  An [OSError] of a stage is not caught:
    it leaves [main] as it is, nothing is printed for it, and the process
    ends with the interpreter's status 1. *)
Theorem command_failure_caught_and_reported
    (env : Env) (argv : list string) (action : string) (w : World) :
  Argparse.scan false None [] argv = Argparse.Namespace action ->
  (forall rc cmd out err w1,
      dispatch env action w = (Raise (CalledProcessError rc cmd out err), w1) ->
      main env argv w =
        (Raise (SystemExit 1), emit (Print Stdout (failure_marker rc)) w1) /\
      exit_status (fst (main env argv w)) = 1%Z /\
      rc <> 0%Z /\
      exists d d', spawn env cmd d = (Exited rc out err, d')) /\
  (forall kind w1,
      dispatch env action w = (Raise (OSError kind), w1) ->
      main env argv w = (Raise (OSError kind), w1) /\
      exit_status (fst (main env argv w)) = 1%Z).
Proof.
  intros Hp. split.
  - intros rc cmd out err w1 Hd.
    rewrite (main_raises env argv action w w1 _ Hp Hd).
    repeat split; try apply (dispatch_failure_origin _ _ _ _ _ _ _ _ Hd).
  - intros kind w1 Hd.
    rewrite (main_raises env argv action w w1 _ Hp Hd). split; reflexivity.
Qed.

Lemma command_failure_caught_and_reported_witness :
  main (sample_env 0 3 0 "no") ["check"] (world_of stale_dist) =
    (Raise (SystemExit 1),
     emit (Print Stdout "✗ Command failed with exit code 3")
          (command_ran check_cmd stale_dist
             (stage_started Check "Checking package..."
                (world_of stale_dist)))) /\
  main (sample_env 0 0 0 "no") ["clean"] (world_of nested_dist) =
    (Raise (OSError IsADirectoryError),
     set_dist (Directory [mkEntry "old" true true] true true)
              (clean_started (world_of nested_dist))).
Proof.
  split.
  - apply (proj1 (command_failure_caught_and_reported
                    (sample_env 0 3 0 "no") ["check"] "check"
                    (world_of stale_dist) eq_refl)
             3%Z check_cmd "checked" "").
    reflexivity.
  - apply (proj2 (command_failure_caught_and_reported
                    (sample_env 0 0 0 "no") ["clean"] "clean"
                    (world_of nested_dist) eq_refl)
             IsADirectoryError).
    reflexivity.
Defined.

(** C3 as stated fails for the filesystem error: Clean meets a
    subdirectory in [dist] and raises [IsADirectoryError]; [main] does not
    catch it, the exception leaves [main], and the only line printed is
    the banner of Clean: no failure marker, no exit status. *)
Lemma clean_failure_escapes_main :
  clean_dist (world_of nested_dist) =
    (Raise (OSError IsADirectoryError),
     set_dist (Directory [mkEntry "old" true true] true true)
              (clean_started (world_of nested_dist))) /\
  main (sample_env 0 0 0 "no") ["clean"] (world_of nested_dist) =
    (Raise (OSError IsADirectoryError),
     set_dist (Directory [mkEntry "old" true true] true true)
              (clean_started (world_of nested_dist))) /\
  output (snd (main (sample_env 0 0 0 "no") ["clean"] (world_of nested_dist))) =
    [Print Stdout "Cleaning dist directory..."] /\
  fst (main (sample_env 0 0 0 "no") ["clean"] (world_of nested_dist)) <>
    Raise (SystemExit 1).
Proof.
  repeat split; try reflexivity. vm_compute. discriminate.
Qed.

(** ** The parser *)

Lemma is_choice_false (tok : string) :
  ~ In tok Argparse.choices -> Argparse.is_choice tok = false.
Proof.
  intros Hn. unfold Argparse.is_choice.
  destruct (existsb (String.eqb tok) Argparse.choices) eqn:E; [|reflexivity].
  apply existsb_exists in E as (x & Hin & Heq).
  apply String.eqb_eq in Heq. subst x. contradiction.
Qed.

(** The parse ends at the token meant for [action] when that token is not
    a choice, whatever unknown options came before it. *)
Lemma scan_invalid_choice (tok : string) (argv : list string) :
  forall (after_dashes : bool) (extras : list string),
    Argparse.action_token after_dashes argv = Some tok ->
    Argparse.is_choice tok = false ->
    Argparse.scan after_dashes None extras argv =
      Argparse.Exit 2 (InvalidChoice tok).
Proof.
  induction argv as [|t rest IH]; intros after_dashes extras Ha Hc.
  - discriminate.
  - simpl in Ha. simpl.
    destruct after_dashes; simpl.
    + inversion Ha; subst. rewrite Hc. reflexivity.
    + destruct (String.eqb t "--").
      * apply IH; assumption.
      * destruct (Argparse.classify t).
        -- inversion Ha; subst. rewrite Hc. reflexivity.
        -- discriminate.
        -- discriminate.
        -- apply IH; assumption.
Qed.

(** C9. When the token that the parser takes for [action] is none of
    clean, build, check, test, publish and all, the parser reports the
    invalid choice and ends the process with status 2, which is not the
    status 1 of a failed stage; no stage is entered, no command is spawned
    and [dist] is untouched. *)
Theorem invalid_action_exits_with_2
    (env : Env) (argv : list string) (tok : string) (w : World) :
  Argparse.action_token false argv = Some tok ->
  ~ In tok Argparse.choices ->
  main env argv w =
    (Raise (SystemExit 2), emit (Parser (InvalidChoice tok)) w) /\
  exit_status (fst (main env argv w)) = 2%Z /\
  exit_status (fst (main env argv w)) <> 1%Z /\
  entered (snd (main env argv w)) = entered w /\
  spawned (snd (main env argv w)) = spawned w /\
  dist (snd (main env argv w)) = dist w.
Proof.
  intros Ha Hn.
  assert (main env argv w =
            (Raise (SystemExit 2), emit (Parser (InvalidChoice tok)) w)) as ->.
  { unfold main. unfold bind at 1. unfold parse_args.
    rewrite (scan_invalid_choice tok argv false [] Ha (is_choice_false tok Hn)).
    reflexivity. }
  simpl. repeat split. discriminate.
Qed.

Lemma invalid_action_exits_with_2_witness :
  main (sample_env 0 0 0 "yes") ["--verbose"; "deploy"; "-h"]
       (world_of stale_dist) =
    (Raise (SystemExit 2),
     emit (Parser (InvalidChoice "deploy")) (world_of stale_dist)).
Proof.
  apply (invalid_action_exits_with_2 (sample_env 0 0 0 "yes")
           ["--verbose"; "deploy"; "-h"] "deploy" (world_of stale_dist)).
  - reflexivity.
  - simpl. intros H.
    repeat (destruct H as [H|H]; [discriminate|]). exact H.
Defined.

(** ** Success *)

(** C10. Whenever the handler of the selected action returns without
    raising, [main] prints the success marker as its last line and the
    process ends with status 0.  A production publish that the gate denies
    is such a run: after "Cancelled." the success marker is printed, no
    command was spawned, and the status is 0. *)
Theorem success_marker_after_return (env : Env) :
  (forall argv action w w1,
      Argparse.scan false None [] argv = Argparse.Namespace action ->
      dispatch env action w = (Ok tt, w1) ->
      main env argv w = (Ok tt, emit (Print Stdout success_marker) w1) /\
      output (snd (main env argv w)) =
        output w1 ++ [Print Stdout "✓ Action completed successfully!"] /\
      exit_status (fst (main env argv w)) = 0%Z) /\
  (forall w response,
      keyboard env = Line response ->
      gate_approves (unicode_lower env) response = false ->
      exists w',
        main env ["publish"] w = (Ok tt, w') /\
        output w' =
          output w ++
          [Print Stdout "Publishing to PyPI...";
           Prompt "Are you sure you want to publish to PyPI? (yes/no): ";
           Print Stdout "Cancelled.";
           Print Stdout "✓ Action completed successfully!"] /\
        spawned w' = spawned w /\
        exit_status (fst (main env ["publish"] w)) = 0%Z).
Proof.
  split.
  - intros argv action w w1 Hp Hd.
    rewrite (main_returns env argv action w w1 Hp Hd). repeat split.
  - intros w response Hk Hgate.
    unfold gate_approves in Hgate. apply negb_false_iff in Hgate.
    assert (Hd : dispatch env "publish" w =
                   (Ok tt, emit (Print Stdout "Cancelled.") (publish_asked w))).
    { change (dispatch env "publish" w) with (publish_pypi env w).
      rewrite (publish_pypi_line env w response Hk), Hgate. reflexivity. }
    rewrite (main_returns env ["publish"] "publish" w _ eq_refl Hd).
    eexists. split; [reflexivity|]. simpl.
    rewrite <- !app_assoc. auto.
Qed.

Lemma success_marker_after_return_witness :
  (main (sample_env 0 0 0 "no") ["clean"] (world_of stale_dist) =
     (Ok tt,
      emit (Print Stdout success_marker)
           (set_dist Absent (clean_started (world_of stale_dist))))) /\
  (exists w',
     main (sample_env 0 0 0 "no") ["publish"] (world_of stale_dist) =
       (Ok tt, w') /\
     output w' =
       [] ++
       [Print Stdout "Publishing to PyPI...";
        Prompt "Are you sure you want to publish to PyPI? (yes/no): ";
        Print Stdout "Cancelled.";
        Print Stdout "✓ Action completed successfully!"] /\
     spawned w' = [] /\
     exit_status (fst (main (sample_env 0 0 0 "no") ["publish"]
                         (world_of stale_dist))) = 0%Z).
Proof.
  destruct (success_marker_after_return (sample_env 0 0 0 "no"))
    as [Hret Hdenied].
  split.
  - apply (Hret ["clean"] "clean" (world_of stale_dist)); reflexivity.
  - apply (Hdenied (world_of stale_dist) (PyStr.lit "no")); reflexivity.
Defined.

(** * Further properties *)

(** ** Clean, when it fails *)

Lemma unlink_until (pre : list Entry) :
  forall (w : World) (e : Entry) (post : list Entry) (l r : bool),
    dist w = Directory (pre ++ e :: post) l r ->
    forallb deletable pre = true ->
    deletable e = false ->
    for_each (map entry_name (pre ++ e :: post)) unlink w =
      (Raise (OSError (unlink_error e)),
       set_dist (Directory (e :: post) l r) w).
Proof.
  induction pre as [|p pre IH]; intros w e post l r Hd Hpre He; simpl in *.
  - unfold bind. rewrite (unlink_head w e post l r Hd), He.
    unfold unlink_error. rewrite <- Hd. rewrite set_dist_same. reflexivity.
  - apply andb_true_iff in Hpre as [Hp Hpre].
    unfold bind.
    rewrite (unlink_head w p (pre ++ e :: post) l r Hd), Hp.
    rewrite (IH (set_dist (Directory (pre ++ e :: post) l r) w) e post l r
               eq_refl Hpre He).
    reflexivity.
Qed.

(** X1. Clean does not roll back.  In a directory it can list, it deletes
    the entries in listing order up to the first one it cannot delete,
    raises the error of that entry ([PermissionError] for a name it may not
    remove, [IsADirectoryError] for a subdirectory) and leaves that entry
    and every later one in [dist]. *)
Theorem clean_stops_at_first_undeletable
    (w : World) (pre : list Entry) (e : Entry) (post : list Entry) (r : bool) :
  dist w = Directory (pre ++ e :: post) true r ->
  forallb deletable pre = true ->
  deletable e = false ->
  clean_dist w =
    (Raise (OSError (unlink_error e)),
     set_dist (Directory (e :: post) true r) (clean_started w)).
Proof.
  intros Hd Hpre He.
  rewrite (clean_dist_directory w (pre ++ e :: post) true r Hd).
  unfold bind.
  rewrite (unlink_until pre (clean_started w) e post true r Hd Hpre He).
  reflexivity.
Qed.

Lemma clean_stops_at_first_undeletable_witness :
  clean_dist (world_of guarded_dist) =
    (Raise (OSError PermissionError),
     set_dist (Directory [mkEntry "SHA256SUMS" false false;
                          mkEntry "pkg-0.9-py3-none-any.whl" false true]
                         true true)
              (clean_started (world_of guarded_dist))).
Proof.
  apply (clean_stops_at_first_undeletable (world_of guarded_dist)
           [mkEntry "pkg-0.8-py3-none-any.whl" false true]
           (mkEntry "SHA256SUMS" false false)
           [mkEntry "pkg-0.9-py3-none-any.whl" false true] true);
    reflexivity.
Defined.

Lemma set_dist_clean_started (w : World) (d : Dist) :
  dist w = d -> set_dist d (clean_started w) = clean_started w.
Proof. intros <-. destruct w; reflexivity. Qed.

Lemma clean_dist_cleanable (w : World) :
  cleanable (dist w) = true ->
  clean_dist w = (Ok tt, set_dist Absent (clean_started w)).
Proof.
  destruct (dist w) as [| |entries l r] eqn:Hd; simpl; intros Hc.
  - rewrite (clean_dist_absent w Hd), (set_dist_clean_started w Absent Hd).
    reflexivity.
  - discriminate.
  - apply andb_true_iff in Hc as [-> Hc]. destruct l.
    + apply (clean_dist_listed w entries true Hd Hc).
    + rewrite (clean_dist_unlisted w entries true Hd). simpl.
      destruct entries; [reflexivity|discriminate].
Qed.

Lemma clean_dist_not_cleanable (w : World) :
  cleanable (dist w) = false ->
  exists kind d,
    clean_dist w = (Raise (OSError kind), set_dist d (clean_started w)) /\
    d <> Absent.
Proof.
  destruct (dist w) as [| |entries l r] eqn:Hd; simpl; intros Hc.
  - discriminate.
  - rewrite (clean_dist_not_a_directory w Hd).
    exists NotADirectoryError, NotADirectory. split; [|discriminate].
    rewrite (set_dist_clean_started w _ Hd). reflexivity.
  - destruct l.
    + destruct (forallb deletable entries) eqn:Hall.
      * rewrite andb_true_r in Hc. subst r.
        rewrite (clean_dist_listed w entries false Hd Hall).
        eexists _, _. split; [reflexivity|discriminate].
      * destruct (clean_dist_undeletable w entries r Hd Hall)
          as (kind & e & rest & Hrun & _).
        rewrite Hrun. eexists _, _. split; [reflexivity|discriminate].
    + rewrite (clean_dist_unlisted w entries r Hd).
      destruct r; simpl in *.
      * destruct entries as [|e rest]; [discriminate|].
        exists DirectoryNotEmpty, (Directory (e :: rest) false true).
        split; [|discriminate].
        rewrite (set_dist_clean_started w _ Hd). reflexivity.
      * exists PermissionError, (Directory entries false false).
        split; [|discriminate].
        rewrite (set_dist_clean_started w _ Hd). reflexivity.
Qed.

(** X2. Clean returns exactly from the cleanable states of [dist], and then
    [dist] is gone; from every other state it raises an [OSError] and
    [dist] still exists afterwards.  So a directory that it emptied but may
    not remove is a failure too. *)
Theorem clean_dist_returns_iff_cleanable (w : World) :
  (fst (clean_dist w) = Ok tt <-> cleanable (dist w) = true) /\
  (cleanable (dist w) = true -> dist (snd (clean_dist w)) = Absent) /\
  (cleanable (dist w) = false ->
   (exists kind, fst (clean_dist w) = Raise (OSError kind)) /\
   dist (snd (clean_dist w)) <> Absent).
Proof.
  destruct (cleanable (dist w)) eqn:Hc.
  - rewrite (clean_dist_cleanable w Hc). simpl.
    repeat split; auto; discriminate.
  - destruct (clean_dist_not_cleanable w Hc) as (kind & d & Hrun & Hd).
    rewrite Hrun. simpl. repeat split; eauto; discriminate.
Qed.

Lemma clean_dist_returns_iff_cleanable_witness :
  (exists kind, fst (clean_dist (world_of pinned_dist)) = Raise (OSError kind)) /\
  dist (snd (clean_dist (world_of pinned_dist))) <> Absent.
Proof.
  apply (proj2 (proj2 (clean_dist_returns_iff_cleanable (world_of pinned_dist)))).
  reflexivity.
Defined.

(** ** The stages that run one command *)

Lemma stage_exited (env : Env) (s : Stage) (banner : string)
    (cmd : list string) (w : World) (rc : Z) (out err : string) (d : Dist) :
  spawn env cmd (dist w) = (Exited rc out err, d) ->
  (enter s ;; print banner ;; run_command env cmd true ;; ret tt) w =
    if (rc =? 0)%Z
    then (Ok tt,
          echo Stderr err
            (echo Stdout out (command_ran cmd d (stage_started s banner w))))
    else (Raise (CalledProcessError rc cmd out err),
          command_ran cmd d (stage_started s banner w)).
Proof.
  intros H. rewrite run_stage.
  rewrite (run_command_exited env cmd true (stage_started s banner w)
             rc out err d H).
  simpl. destruct (rc =? 0)%Z; reflexivity.
Qed.

Lemma dist_echo (to : Stream) (text : string) (w : World) :
  dist (echo to text w) = dist w.
Proof. unfold echo. destruct (truthy text); reflexivity. Qed.

(** X3. Build, Check and the test upload always run their command with
    [check]: the stage returns exactly when the command ends with return
    code 0 and raises [CalledProcessError] with the code otherwise; either
    way [dist] is left as the command left it. *)
Theorem command_stages_follow_return_code (env : Env) (w : World)
    (rc : Z) (out err : string) (d : Dist) :
  (spawn env (build_cmd env) (dist w) = (Exited rc out err, d) ->
   fst (build_package env w) =
     (if (rc =? 0)%Z then Ok tt
      else Raise (CalledProcessError rc (build_cmd env) out err)) /\
   dist (snd (build_package env w)) = d) /\
  (spawn env check_cmd (dist w) = (Exited rc out err, d) ->
   fst (check_package env w) =
     (if (rc =? 0)%Z then Ok tt
      else Raise (CalledProcessError rc check_cmd out err)) /\
   dist (snd (check_package env w)) = d) /\
  (spawn env test_upload_cmd (dist w) = (Exited rc out err, d) ->
   fst (publish_test env w) =
     (if (rc =? 0)%Z then Ok tt
      else Raise (CalledProcessError rc test_upload_cmd out err)) /\
   dist (snd (publish_test env w)) = d).
Proof.
  split; [|split]; intros H.
  - unfold build_package.
    rewrite (stage_exited env Build _ (build_cmd env) w rc out err d H).
    destruct (rc =? 0)%Z; simpl; [rewrite !dist_echo|]; auto.
  - unfold check_package.
    rewrite (stage_exited env Check _ check_cmd w rc out err d H).
    destruct (rc =? 0)%Z; simpl; [rewrite !dist_echo|]; auto.
  - unfold publish_test.
    rewrite (stage_exited env PublishTest _ test_upload_cmd w rc out err d H).
    destruct (rc =? 0)%Z; simpl; [rewrite !dist_echo|]; auto.
Qed.

Lemma command_stages_follow_return_code_witness :
  fst (check_package (sample_env 0 3 0 "no") (world_of stale_dist)) =
    Raise (CalledProcessError 3 check_cmd "checked" "") /\
  dist (snd (check_package (sample_env 0 3 0 "no") (world_of stale_dist))) =
    stale_dist.
Proof.
  apply (proj1 (proj2 (command_stages_follow_return_code
                         (sample_env 0 3 0 "no") (world_of stale_dist)
                         3 "checked" "" stale_dist))).
  reflexivity.
Defined.

Lemma publish_test_logs (env : Env) (w : World) :
  entered (snd (publish_test env w)) = entered w ++ [PublishTest] /\
  spawned (snd (publish_test env w)) = spawned w ++ [test_upload_cmd].
Proof.
  rewrite publish_test_run. simpl.
  destruct (run_command_logs env test_upload_cmd true
              (stage_started PublishTest "Publishing to Test PyPI..." w))
    as [Hs He].
  rewrite Hs, He. auto.
Qed.

Lemma publish_pypi_logs (env : Env) (w : World) :
  entered (snd (publish_pypi env w)) = entered w ++ [PublishPypi] /\
  spawned (snd (publish_pypi env w)) = spawned w ++ uploads env.
Proof.
  unfold uploads.
  destruct (keyboard env) as [response| |] eqn:Hk.
  - rewrite (publish_pypi_line env w response Hk).
    destruct (gate_denies (unicode_lower env) response); simpl.
    + rewrite app_nil_r. auto.
    + destruct (run_command_logs env upload_cmd true (publish_asked w))
        as [Hs He].
      rewrite Hs, He. auto.
  - rewrite (proj1 (publish_pypi_no_line env w) Hk). simpl.
    rewrite app_nil_r. auto.
  - rewrite (proj2 (publish_pypi_no_line env w) Hk). simpl.
    rewrite app_nil_r. auto.
Qed.

(** The logs after an action: the stages entered and the commands spawned,
    from the start of the action to its end. *)
Lemma dispatch_logs (env : Env) (action : string) (w : World) :
  exists stages cmds,
    entered (snd (dispatch env action w)) = entered w ++ stages /\
    spawned (snd (dispatch env action w)) = spawned w ++ cmds /\
    (forall s, stage_of action = Some s -> stages = [s]) /\
    (stage_of action <> None -> (List.length cmds <= 1)%nat) /\
    (In action Argparse.choices -> stages <> []) /\
    incl cmds (build_cmd env :: check_cmd :: test_upload_cmd :: uploads env).
Proof.
  unfold dispatch, stage_of.
  destruct (String.eqb action "clean") eqn:E1.
  { destruct (clean_dist_logs w) as [He Hs].
    exists [Clean], []. rewrite He, Hs, app_nil_r.
    repeat split; auto; try discriminate.
    - intros s H. inversion H. reflexivity.
    - intros c []. }
  destruct (String.eqb action "build") eqn:E2.
  { destruct (build_package_logs env w) as [He Hs].
    exists [Build], [build_cmd env]. rewrite He, Hs.
    repeat split; auto; try discriminate.
    - intros s H. inversion H. reflexivity.
    - intros c [<-|[]]. simpl. auto. }
  destruct (String.eqb action "check") eqn:E3.
  { destruct (check_package_logs env w) as [He Hs].
    exists [Check], [check_cmd]. rewrite He, Hs.
    repeat split; auto; try discriminate.
    - intros s H. inversion H. reflexivity.
    - intros c [<-|[]]. simpl. auto. }
  destruct (String.eqb action "test") eqn:E4.
  { destruct (publish_test_logs env w) as [He Hs].
    exists [PublishTest], [test_upload_cmd]. rewrite He, Hs.
    repeat split; auto; try discriminate.
    - intros s H. inversion H. reflexivity.
    - intros c [<-|[]]. simpl. auto. }
  destruct (String.eqb action "publish") eqn:E5.
  { destruct (publish_pypi_logs env w) as [He Hs].
    exists [PublishPypi], (uploads env). rewrite He, Hs.
    repeat split; auto; try discriminate.
    - intros s H. inversion H. reflexivity.
    - intros _. unfold uploads. destruct (keyboard env); simpl; auto.
      destruct (gate_denies _ _); simpl; auto.
    - intros c H. simpl. auto. }
  destruct (String.eqb action "all") eqn:E6.
  { unfold bind.
    destruct (clean_dist w) as [[[]|e1] w1] eqn:Hc;
      pose proof (clean_dist_logs w) as [Le1 Ls1]; rewrite Hc in Le1, Ls1;
      simpl in Le1, Ls1.
    2:{ exists [Clean], []. simpl. rewrite Le1, Ls1, app_nil_r.
        repeat split; auto; try discriminate. intros c []. }
    destruct (build_package env w1) as [[[]|e2] w2] eqn:Hb;
      pose proof (build_package_logs env w1) as [Le2 Ls2];
      rewrite Hb in Le2, Ls2; simpl in Le2, Ls2.
    2:{ exists [Clean; Build], [build_cmd env]. simpl.
        rewrite Le2, Ls2, Le1, Ls1, <- app_assoc.
        repeat split; auto; try discriminate.
        intros c [<-|[]]. simpl. auto. }
    destruct (check_package env w2) as [[[]|e3] w3] eqn:Hk;
      pose proof (check_package_logs env w2) as [Le3 Ls3];
      rewrite Hk in Le3, Ls3; simpl in Le3, Ls3;
      exists [Clean; Build; Check], [build_cmd env; check_cmd]; simpl;
      rewrite Le3, Ls3, Le2, Ls2, Le1, Ls1, <- !app_assoc;
      (repeat split; auto; try discriminate);
      try (intros H; exfalso; apply H; reflexivity);
      intros c [<-|[<-|[]]]; simpl; auto. }
  exists [], []. simpl. rewrite !app_nil_r.
  repeat split; auto; try discriminate.
  - intros H. simpl in H.
    repeat (destruct H as [<-|H]; [discriminate|]). contradiction.
  - intros c [].
Qed.

(** ** What [main] adds to the logs *)

Lemma main_unparsed (env : Env) (argv : list string) (w : World)
    (code : Z) (report : ParserReport) :
  Argparse.scan false None [] argv = Argparse.Exit code report ->
  main env argv w = (Raise (SystemExit code), emit (Parser report) w).
Proof.
  intros H. unfold main. unfold bind at 1. unfold parse_args.
  rewrite H. reflexivity.
Qed.

(** Past the parser, [main] adds only lines of output to what the action
    did. *)
Lemma main_keeps_logs (env : Env) (argv : list string) (action : string)
    (w : World) :
  Argparse.scan false None [] argv = Argparse.Namespace action ->
  entered (snd (main env argv w)) = entered (snd (dispatch env action w)) /\
  spawned (snd (main env argv w)) = spawned (snd (dispatch env action w)) /\
  dist (snd (main env argv w)) = dist (snd (dispatch env action w)).
Proof.
  intros Hp. rewrite (main_parsed env argv action w Hp).
  unfold try_except, bind.
  destruct (dispatch env action w) as [[[]|e] w1]; simpl; [auto|].
  destruct e; simpl; auto.
Qed.

Lemma stage_of_choice (action : string) (s : Stage) :
  stage_of action = Some s ->
  Argparse.scan false None [] [action] = Argparse.Namespace action.
Proof.
  unfold stage_of.
  destruct (String.eqb action "clean") eqn:E1;
    [apply String.eqb_eq in E1; subst; reflexivity|].
  destruct (String.eqb action "build") eqn:E2;
    [apply String.eqb_eq in E2; subst; reflexivity|].
  destruct (String.eqb action "check") eqn:E3;
    [apply String.eqb_eq in E3; subst; reflexivity|].
  destruct (String.eqb action "test") eqn:E4;
    [apply String.eqb_eq in E4; subst; reflexivity|].
  destruct (String.eqb action "publish") eqn:E5;
    [apply String.eqb_eq in E5; subst; reflexivity|].
  discriminate.
Qed.

(** X4. Each of the actions clean, build, check, test and publish enters
    exactly one stage function, its own, and spawns at most one command;
    no other stage runs beside it. *)
Theorem single_action_runs_one_stage
    (env : Env) (action : string) (s : Stage) (w : World) :
  stage_of action = Some s ->
  entered (snd (main env [action] w)) = entered w ++ [s] /\
  exists cmds,
    spawned (snd (main env [action] w)) = spawned w ++ cmds /\
    (List.length cmds <= 1)%nat.
Proof.
  intros Hs.
  destruct (main_keeps_logs env [action] action w (stage_of_choice action s Hs))
    as (He & Hc & _).
  destruct (dispatch_logs env action w)
    as (stages & cmds & Hst & Hcm & Hone & Hlen & _).
  rewrite He, Hc, Hst, Hcm, (Hone s Hs).
  split; [reflexivity|].
  exists cmds. split; [reflexivity|].
  apply Hlen. rewrite Hs. discriminate.
Qed.

Lemma single_action_runs_one_stage_witness :
  entered (snd (main (sample_env 0 0 0 "no") ["test"] (world_of stale_dist))) =
    [] ++ [PublishTest] /\
  exists cmds,
    spawned (snd (main (sample_env 0 0 0 "no") ["test"] (world_of stale_dist))) =
      [] ++ cmds /\
    (List.length cmds <= 1)%nat.
Proof.
  apply (single_action_runs_one_stage (sample_env 0 0 0 "no") "test"
           PublishTest (world_of stale_dist)).
  reflexivity.
Defined.

Lemma upload_is_no_other_command (env : Env) :
  ~ In upload_cmd [build_cmd env; check_cmd; test_upload_cmd].
Proof.
  unfold upload_cmd, build_cmd, check_cmd, test_upload_cmd.
  intros [H|[H|[H|[]]]]; inversion H.
Qed.

(** The production upload is in the log of a run only if it was there
    before or the gate let it through. *)
Lemma upload_spawned_inv (env : Env) (argv : list string) (w : World) :
  In upload_cmd (spawned (snd (main env argv w))) ->
  ~ In upload_cmd (spawned w) ->
  exists response,
    keyboard env = Line response /\
    gate_approves (unicode_lower env) response = true.
Proof.
  intros Hin Hnot.
  assert (Hup : In upload_cmd (uploads env)).
  { destruct (Argparse.scan false None [] argv) as [action|code report] eqn:Hp.
    - destruct (main_keeps_logs env argv action w Hp) as (_ & Hc & _).
      destruct (dispatch_logs env action w)
        as (stages & cmds & _ & Hcm & _ & _ & _ & Hincl).
      rewrite Hc, Hcm in Hin. apply in_app_or in Hin as [Hin|Hin];
        [contradiction|].
      apply Hincl in Hin.
      change (In upload_cmd ([build_cmd env; check_cmd; test_upload_cmd]
                               ++ uploads env)) in Hin.
      apply in_app_or in Hin as [Hin|Hin]; [|exact Hin].
      exfalso. apply (upload_is_no_other_command env Hin).
    - rewrite (main_unparsed env argv w code report Hp) in Hin.
      contradiction. }
  unfold uploads in Hup.
  destruct (keyboard env) as [response| |]; try contradiction.
  exists response. split; [reflexivity|].
  unfold gate_approves.
  destruct (gate_denies (unicode_lower env) response);
    [contradiction|reflexivity].
Qed.

(** X5. No run uploads to PyPI unasked.  Whatever the command line, if the
    production upload command was spawned during a run of [main], then a
    line was read at the prompt and that line was one of the eight
    spellings of "yes"; end of input, an interrupt or any other line never
    lead to the upload. *)
Theorem upload_needs_yes (env : Env) (argv : list string) (w : World) :
  PyStr.lower_table_ok (unicode_lower env) ->
  ~ In upload_cmd (spawned w) ->
  In upload_cmd (spawned (snd (main env argv w))) ->
  exists response,
    keyboard env = Line response /\ In response yes_spellings.
Proof.
  intros Hok Hnot Hin.
  destruct (upload_spawned_inv env argv w Hin Hnot) as (response & Hk & Hg).
  exists response. split; [exact Hk|].
  unfold gate_approves, gate_denies in Hg.
  rewrite negb_involutive in Hg. apply eqb_eq in Hg.
  apply (lower_yes_inv (unicode_lower env) Hok response Hg).
Qed.

Lemma upload_needs_yes_witness :
  exists response,
    keyboard (sample_env 0 0 0 "YES") = Line response /\
    In response yes_spellings.
Proof.
  apply (upload_needs_yes (sample_env 0 0 0 "YES") ["publish"]
           (world_of stale_dist) sample_table_ok).
  - simpl. tauto.
  - vm_compute. auto.
Defined.

(** ** The production publish, approved *)

(** X6. When the line typed at the prompt passes the gate, the action
    [publish] spawns the production upload exactly once.  If the upload
    tool ends with return code 0 the run ends with the success marker and
    status 0; if it ends with another code the run ends with the failure
    marker for that code and status 1. *)
Theorem approved_publish_uploads_once
    (env : Env) (w : World) (response : PyStr.t)
    (rc : Z) (out err : string) (d : Dist) :
  keyboard env = Line response ->
  gate_approves (unicode_lower env) response = true ->
  spawn env upload_cmd (dist w) = (Exited rc out err, d) ->
  spawned (snd (main env ["publish"] w)) = spawned w ++ [upload_cmd] /\
  main env ["publish"] w =
    if (rc =? 0)%Z
    then (Ok tt,
          emit (Print Stdout success_marker)
            (echo Stderr err
               (echo Stdout out (command_ran upload_cmd d (publish_asked w)))))
    else (Raise (SystemExit 1),
          emit (Print Stdout (failure_marker rc))
            (command_ran upload_cmd d (publish_asked w))).
Proof.
  intros Hk Hg Hs.
  unfold gate_approves in Hg. apply negb_true_iff in Hg.
  assert (Hd : dispatch env "publish" w =
                 if (rc =? 0)%Z
                 then (Ok tt,
                       echo Stderr err
                         (echo Stdout out
                            (command_ran upload_cmd d (publish_asked w))))
                 else (Raise (CalledProcessError rc upload_cmd out err),
                       command_ran upload_cmd d (publish_asked w))).
  { change (dispatch env "publish" w) with (publish_pypi env w).
    rewrite (publish_pypi_line env w response Hk), Hg.
    rewrite (run_command_exited env upload_cmd true (publish_asked w)
               rc out err d Hs).
    simpl. destruct (rc =? 0)%Z; reflexivity. }
  split.
  - destruct (main_keeps_logs env ["publish"] "publish" w eq_refl)
      as (_ & Hc & _).
    rewrite Hc.
    change (dispatch env "publish" w) with (publish_pypi env w).
    rewrite (proj2 (publish_pypi_logs env w)).
    unfold uploads. rewrite Hk, Hg. reflexivity.
  - destruct (rc =? 0)%Z.
    + apply (main_returns env ["publish"] "publish" w _ eq_refl Hd).
    + rewrite (main_raises env ["publish"] "publish" w _ _ eq_refl Hd).
      reflexivity.
Qed.

Lemma approved_publish_uploads_once_witness :
  spawned (snd (main (sample_env 0 0 7 "Yes") ["publish"]
                  (world_of stale_dist))) = [] ++ [upload_cmd] /\
  main (sample_env 0 0 7 "Yes") ["publish"] (world_of stale_dist) =
    (Raise (SystemExit 1),
     emit (Print Stdout (failure_marker 7))
          (command_ran upload_cmd stale_dist
             (publish_asked (world_of stale_dist)))).
Proof.
  apply (approved_publish_uploads_once (sample_env 0 0 7 "Yes")
           (world_of stale_dist) (PyStr.lit "Yes") 7 "" "uploading" stale_dist);
    reflexivity.
Defined.

(** ** Interrupts and end of input *)

(** X7. A keyboard interrupt inside the [try] block is reported as a
    cancellation: [main] prints the cancel marker and leaves with status 1.
    At the prompt of [publish] this happens before any command is spawned;
    during a command (here the build) the stage stops there, and the
    command is in the log. *)
Theorem interrupt_is_reported_as_cancelled (env : Env) (w : World) :
  (forall argv action w1,
      Argparse.scan false None [] argv = Argparse.Namespace action ->
      dispatch env action w = (Raise KeyboardInterrupt, w1) ->
      main env argv w =
        (Raise (SystemExit 1), emit (Print Stdout cancel_marker) w1)) /\
  (keyboard env = Interrupt ->
   main env ["publish"] w =
     (Raise (SystemExit 1),
      emit (Print Stdout cancel_marker) (publish_asked w)) /\
   spawned (snd (main env ["publish"] w)) = spawned w) /\
  (forall d,
      spawn env (build_cmd env) (dist w) = (SpawnInterrupted, d) ->
      main env ["build"] w =
        (Raise (SystemExit 1),
         emit (Print Stdout cancel_marker)
           (command_ran (build_cmd env) d
              (stage_started Build "Building package..." w)))).
Proof.
  split; [|split].
  - intros argv action w1 Hp Hd.
    rewrite (main_raises env argv action w w1 _ Hp Hd). reflexivity.
  - intros Hk.
    assert (Hd : dispatch env "publish" w =
                   (Raise KeyboardInterrupt, publish_asked w)).
    { apply (proj2 (publish_pypi_no_line env w) Hk). }
    rewrite (main_raises env ["publish"] "publish" w _ _ eq_refl Hd).
    split; reflexivity.
  - intros d Hs.
    assert (Hd : dispatch env "build" w =
                   (Raise KeyboardInterrupt,
                    command_ran (build_cmd env) d
                      (stage_started Build "Building package..." w))).
    { change (dispatch env "build" w) with (build_package env w).
      rewrite build_package_run.
      rewrite (run_command_interrupted env (build_cmd env) true
                 (stage_started Build "Building package..." w) d Hs).
      reflexivity. }
    rewrite (main_raises env ["build"] "build" w _ _ eq_refl Hd).
    reflexivity.
Qed.

Lemma interrupt_is_reported_as_cancelled_witness :
  (main (with_keyboard Interrupt (sample_env 0 0 0 "yes")) ["publish"]
        (world_of stale_dist) =
     (Raise (SystemExit 1),
      emit (Print Stdout cancel_marker) (publish_asked (world_of stale_dist))) /\
   spawned (snd (main (with_keyboard Interrupt (sample_env 0 0 0 "yes"))
                   ["publish"] (world_of stale_dist))) = []) /\
  main interrupted_env ["build"] (world_of stale_dist) =
    (Raise (SystemExit 1),
     emit (Print Stdout cancel_marker)
       (command_ran (build_cmd interrupted_env) stale_dist
          (stage_started Build "Building package..." (world_of stale_dist)))).
Proof.
  split.
  - apply (proj1 (proj2 (interrupt_is_reported_as_cancelled
                           (with_keyboard Interrupt (sample_env 0 0 0 "yes"))
                           (world_of stale_dist)))).
    reflexivity.
  - apply (proj2 (proj2 (interrupt_is_reported_as_cancelled
                           interrupted_env (world_of stale_dist)))).
    reflexivity.
Defined.

(** X8. End of input at the prompt is not handled.  When [input] meets the
    end of its input, [publish] uploads nothing, and the [EOFError] leaves
    [main] uncaught: no "Cancelled.", no marker of success or failure is
    printed, and the process ends with the interpreter's status 1. *)
Theorem end_of_input_escapes_main (env : Env) (w : World) :
  keyboard env = EndOfInput ->
  main env ["publish"] w = (Raise EOFError, publish_asked w) /\
  spawned (snd (main env ["publish"] w)) = spawned w /\
  output (snd (main env ["publish"] w)) =
    output w ++
    [Print Stdout "Publishing to PyPI...";
     Prompt "Are you sure you want to publish to PyPI? (yes/no): "] /\
  exit_status (fst (main env ["publish"] w)) = 1%Z.
Proof.
  intros Hk.
  assert (Hd : dispatch env "publish" w = (Raise EOFError, publish_asked w)).
  { apply (proj1 (publish_pypi_no_line env w) Hk). }
  rewrite (main_raises env ["publish"] "publish" w _ _ eq_refl Hd).
  simpl. rewrite <- app_assoc. auto.
Qed.

Lemma end_of_input_escapes_main_witness :
  main (with_keyboard EndOfInput (sample_env 0 0 0 "yes")) ["publish"]
       (world_of stale_dist) =
    (Raise EOFError, publish_asked (world_of stale_dist)).
Proof.
  apply (end_of_input_escapes_main
           (with_keyboard EndOfInput (sample_env 0 0 0 "yes"))
           (world_of stale_dist)).
  reflexivity.
Defined.

(** ** What the parser lets through *)

Lemma scan_namespace (argv : list string) :
  forall (after_dashes : bool) (action : option string)
         (extras : list string) (a : string),
    Argparse.scan after_dashes action extras argv = Argparse.Namespace a ->
    match action with
    | Some given => a = given
    | None => Argparse.is_choice a = true
    end.
Proof.
  induction argv as [|tok rest IH]; intros after_dashes action extras a; simpl.
  - destruct action as [given|]; [|discriminate].
    destruct extras; [|discriminate]. intros H. inversion H. reflexivity.
  - destruct (negb after_dashes && String.eqb tok "--"); [apply IH|].
    destruct (if after_dashes then Argparse.Positional
              else Argparse.classify tok); try discriminate.
    + destruct action as [given|]; [apply (IH after_dashes (Some given))|].
      destruct (Argparse.is_choice tok) eqn:Hc; [|discriminate].
      intros H. apply (IH after_dashes (Some tok)) in H. subst a. exact Hc.
    + apply IH.
Qed.

(** X10. The parser lets only the six choices through, so the [if]/[elif]
    chain of [main] always finds its branch: whenever the parse returns an
    action, that action is one of clean, build, check, test, publish and
    all, and at least one stage function is entered. *)
Theorem parsed_action_runs_a_stage
    (env : Env) (argv : list string) (action : string) (w : World) :
  Argparse.scan false None [] argv = Argparse.Namespace action ->
  In action Argparse.choices /\
  exists s rest,
    entered (snd (main env argv w)) = entered w ++ s :: rest.
Proof.
  intros Hp.
  assert (Hin : In action Argparse.choices).
  { pose proof (scan_namespace argv false None [] action Hp) as Hc.
    simpl in Hc. unfold Argparse.is_choice in Hc.
    apply existsb_exists in Hc as (x & Hx & Heq).
    apply String.eqb_eq in Heq. subst x. exact Hx. }
  split; [exact Hin|].
  destruct (main_keeps_logs env argv action w Hp) as (He & _).
  destruct (dispatch_logs env action w)
    as (stages & cmds & Hst & _ & _ & _ & Hne & _).
  rewrite He, Hst.
  destruct stages as [|s rest]; [exfalso; apply (Hne Hin); reflexivity|].
  exists s, rest. reflexivity.
Qed.

Lemma parsed_action_runs_a_stage_witness :
  In "all" Argparse.choices /\
  exists s rest,
    entered (snd (main (sample_env 0 0 0 "no") ["--"; "all"]
                    (world_of stale_dist))) = [] ++ s :: rest.
Proof.
  apply (parsed_action_runs_a_stage (sample_env 0 0 0 "no") ["--"; "all"]
           "all" (world_of stale_dist)).
  reflexivity.
Defined.

(** ** The action [all], when every stage succeeds *)

Lemma clean_dist_ok_world (w w1 : World) :
  clean_dist w = (Ok tt, w1) -> w1 = set_dist Absent (clean_started w).
Proof.
  intros H. destruct (clean_dist_outcome w) as (d & Hw & Hr).
  rewrite H in Hw, Hr. simpl in Hw, Hr.
  destruct Hr as [[_ ->]|[kind Hk]]; [exact Hw|discriminate].
Qed.

(** X11. In the action [all] the build never sees old files: when Clean
    returns, the build command is run with [dist] absent.  If the build
    and then the check, run on what the build left, both end with return
    code 0, the run ends with status 0, [dist] is as the check left it, and
    the output is, in this order: the banner of Clean; the banner of Build,
    its "Running:" line and its captured streams; the same for Check; the
    three closing lines; the success marker. *)
Theorem all_builds_from_scratch (env : Env) (w w1 : World)
    (out1 err1 : string) (d1 : Dist) (out2 err2 : string) (d2 : Dist) :
  clean_dist w = (Ok tt, w1) ->
  spawn env (build_cmd env) Absent = (Exited 0 out1 err1, d1) ->
  spawn env check_cmd d1 = (Exited 0 out2 err2, d2) ->
  exists w',
    main env ["all"] w = (Ok tt, w') /\
    exit_status (fst (main env ["all"] w)) = 0%Z /\
    dist w' = d2 /\
    spawned w' = spawned w ++ [build_cmd env; check_cmd] /\
    output w' =
      output w ++
      [Print Stdout "Cleaning dist directory...";
       Print Stdout "Building package...";
       Print Stdout ("Running: " ++ String.concat " " (build_cmd env))] ++
      echoed Stdout out1 ++ echoed Stderr err1 ++
      [Print Stdout "Checking package...";
       Print Stdout "Running: twine check dist/*"] ++
      echoed Stdout out2 ++ echoed Stderr err2 ++
      [Print Stdout (newline ++ "Package built and checked successfully!");
       Print Stdout "Run 'python scripts/publish.py test' to publish to Test PyPI";
       Print Stdout "Run 'python scripts/publish.py publish' to publish to PyPI";
       Print Stdout "✓ Action completed successfully!"].
Proof.
  intros Hc Hb Hk.
  pose proof (clean_dist_ok_world w w1 Hc) as Hw1.
  set (w2 := echo Stderr err1
               (echo Stdout out1
                  (command_ran (build_cmd env) d1
                     (stage_started Build "Building package..." w1)))).
  set (w3 := echo Stderr err2
               (echo Stdout out2
                  (command_ran check_cmd d2
                     (stage_started Check "Checking package..." w2)))).
  assert (Hbuild : build_package env w1 = (Ok tt, w2)).
  { unfold build_package.
    rewrite (stage_exited env Build _ (build_cmd env) w1 0 out1 err1 d1);
      [reflexivity|].
    rewrite Hw1. exact Hb. }
  assert (Hcheck : check_package env w2 = (Ok tt, w3)).
  { unfold check_package.
    rewrite (stage_exited env Check _ check_cmd w2 0 out2 err2 d2);
      [reflexivity|].
    unfold w2. rewrite !dist_echo. exact Hk. }
  assert (Hd : dispatch env "all" w =
                 (Ok tt,
                  emit (Print Stdout
                          "Run 'python scripts/publish.py publish' to publish to PyPI")
                    (emit (Print Stdout
                             "Run 'python scripts/publish.py test' to publish to Test PyPI")
                       (emit (Print Stdout
                                (newline ++
                                 "Package built and checked successfully!"))
                          w3)))).
  { rewrite dispatch_all. unfold bind at 1 2 3. rewrite Hc, Hbuild, Hcheck.
    reflexivity. }
  rewrite (main_returns env ["all"] "all" w _ eq_refl Hd).
  eexists. split; [reflexivity|].
  split; [reflexivity|].
  split; [|split].
  - simpl. unfold w3. rewrite !dist_echo. reflexivity.
  - pose proof (check_package_logs env w2) as [_ Ls3].
    pose proof (build_package_logs env w1) as [_ Ls2].
    rewrite Hcheck in Ls3. rewrite Hbuild in Ls2. simpl in Ls3, Ls2.
    simpl. rewrite Ls3, Ls2, Hw1, <- app_assoc. reflexivity.
  - simpl. unfold w3. rewrite !output_echo. simpl.
    unfold w2. rewrite !output_echo. simpl.
    rewrite Hw1. simpl.
    repeat rewrite <- app_assoc. reflexivity.
Qed.

Lemma all_builds_from_scratch_witness :
  exists w',
    main (sample_env 0 0 0 "no") ["all"] (world_of stale_dist) = (Ok tt, w') /\
    exit_status (fst (main (sample_env 0 0 0 "no") ["all"]
                        (world_of stale_dist))) = 0%Z /\
    dist w' = Directory [mkEntry "pkg-1.0-py3-none-any.whl" false true]
                        true true /\
    spawned w' = [] ++ [build_cmd (sample_env 0 0 0 "no"); check_cmd] /\
    output w' =
      [] ++
      [Print Stdout "Cleaning dist directory...";
       Print Stdout "Building package...";
       Print Stdout ("Running: " ++
                     String.concat " " (build_cmd (sample_env 0 0 0 "no")))] ++
      echoed Stdout "creating wheel" ++
      echoed Stderr "warning: no license file" ++
      [Print Stdout "Checking package...";
       Print Stdout "Running: twine check dist/*"] ++
      echoed Stdout "checked" ++ echoed Stderr "" ++
      [Print Stdout (newline ++ "Package built and checked successfully!");
       Print Stdout "Run 'python scripts/publish.py test' to publish to Test PyPI";
       Print Stdout "Run 'python scripts/publish.py publish' to publish to PyPI";
       Print Stdout "✓ Action completed successfully!"].
Proof.
  apply (all_builds_from_scratch (sample_env 0 0 0 "no")
           (world_of stale_dist)
           (set_dist Absent (clean_started (world_of stale_dist)))
           "creating wheel" "warning: no license file"
           (Directory [mkEntry "pkg-1.0-py3-none-any.whl" false true] true true)
           "checked" ""
           (Directory [mkEntry "pkg-1.0-py3-none-any.whl" false true] true true));
    reflexivity.
Defined.

(** ** The gate and the length of the response *)

(** X12. The gate tolerates nothing around the word: a response that does
    not have exactly three characters is denied, so "yes" followed or
    preceded by a space, "yes." and "yess" do not confirm. *)
Theorem gate_denies_other_lengths
    (tbl : list N -> N -> list N -> list N) (response : PyStr.t) :
  PyStr.lower_table_ok tbl ->
  List.length response <> 3%nat ->
  gate_denies tbl response = true.
Proof.
  intros Hok Hlen. unfold gate_denies.
  destruct (PyStr.eqb (PyStr.lower tbl response) (PyStr.lit "yes")) eqn:E;
    [|reflexivity].
  exfalso. apply Hlen. apply eqb_eq in E.
  pose proof (lower_yes_inv tbl Hok response E) as Hin.
  vm_compute in Hin.
  repeat (destruct Hin as [<-|Hin]; [reflexivity|]). contradiction.
Qed.

Lemma gate_denies_other_lengths_witness :
  gate_denies PyStr.sample_table (PyStr.lit "yes ") = true.
Proof.
  apply (gate_denies_other_lengths PyStr.sample_table (PyStr.lit "yes ")
           sample_table_ok).
  vm_compute. discriminate.
Defined.

(** ** A tool that cannot be started *)

(** X13. A command that cannot be started (a missing [twine], say) is not
    a failed command for [main]: the [OSError] of [subprocess.run] leaves
    Build, Check and the test upload and then [main] uncaught, after the
    "Running:" line; no captured output and no failure marker is printed,
    and the process ends with the interpreter's status 1. *)
Theorem unstartable_tool_escapes_main (env : Env) (w : World)
    (kind : OSErrorKind) (d : Dist) :
  (spawn env (build_cmd env) (dist w) = (CannotSpawn kind, d) ->
   main env ["build"] w =
     (Raise (OSError kind),
      command_ran (build_cmd env) d
        (stage_started Build "Building package..." w))) /\
  (spawn env check_cmd (dist w) = (CannotSpawn kind, d) ->
   main env ["check"] w =
     (Raise (OSError kind),
      command_ran check_cmd d
        (stage_started Check "Checking package..." w))) /\
  (spawn env test_upload_cmd (dist w) = (CannotSpawn kind, d) ->
   main env ["test"] w =
     (Raise (OSError kind),
      command_ran test_upload_cmd d
        (stage_started PublishTest "Publishing to Test PyPI..." w))) /\
  exit_status (@Raise unit (OSError kind)) = 1%Z.
Proof.
  split; [|split; [|split; [|reflexivity]]]; intros Hs.
  - assert (Hd : dispatch env "build" w =
                   (Raise (OSError kind),
                    command_ran (build_cmd env) d
                      (stage_started Build "Building package..." w))).
    { change (dispatch env "build" w) with (build_package env w).
      rewrite build_package_run.
      rewrite (run_command_cannot_spawn env (build_cmd env) true
                 (stage_started Build "Building package..." w) kind d Hs).
      reflexivity. }
    rewrite (main_raises env ["build"] "build" w _ _ eq_refl Hd). reflexivity.
  - assert (Hd : dispatch env "check" w =
                   (Raise (OSError kind),
                    command_ran check_cmd d
                      (stage_started Check "Checking package..." w))).
    { change (dispatch env "check" w) with (check_package env w).
      rewrite check_package_run.
      rewrite (run_command_cannot_spawn env check_cmd true
                 (stage_started Check "Checking package..." w) kind d Hs).
      reflexivity. }
    rewrite (main_raises env ["check"] "check" w _ _ eq_refl Hd). reflexivity.
  - assert (Hd : dispatch env "test" w =
                   (Raise (OSError kind),
                    command_ran test_upload_cmd d
                      (stage_started PublishTest "Publishing to Test PyPI..." w))).
    { change (dispatch env "test" w) with (publish_test env w).
      rewrite publish_test_run.
      rewrite (run_command_cannot_spawn env test_upload_cmd true
                 (stage_started PublishTest "Publishing to Test PyPI..." w)
                 kind d Hs).
      reflexivity. }
    rewrite (main_raises env ["test"] "test" w _ _ eq_refl Hd). reflexivity.
Qed.

Lemma unstartable_tool_escapes_main_witness :
  main missing_tools_env ["check"] (world_of stale_dist) =
    (Raise (OSError FileNotFoundError),
     command_ran check_cmd stale_dist
       (stage_started Check "Checking package..." (world_of stale_dist))).
Proof.
  apply (proj1 (proj2 (unstartable_tool_escapes_main missing_tools_env
                         (world_of stale_dist) FileNotFoundError stale_dist))).
  reflexivity.
Defined.
